(** * Versioning gate of DragonHealth: [Scripts/validate_versioning.py]

    A shallow embedding of the script and the properties of its
    validation and comparison rules.

    Python values are embedded as they come out of [json.load]; a [str] is
    the list of its Unicode code points; the ways a call can end (normal
    return, [sys.exit(1)] after printing an [ERROR: ] line, an uncaught
    exception) are constructors of [res]; what the script reads from its
    surroundings is a [World]. *)

From Stdlib Require Import ZArith NArith List String Ascii Bool Lia.
From Stdlib Require Import DecimalString DecimalPos.
Import ListNotations.

Local Open Scope N_scope.
Local Open Scope list_scope.

Set Warnings "-register-all".

(** ** Strings *)

(** A code point. *)
Abbreviation char := N (only parsing).

(** A Python [str]. *)
Abbreviation pystr := (list N) (only parsing).

(** The [str] denoted by an ASCII literal of the source. *)
Definition str (s : string) : pystr :=
  map N_of_ascii (list_ascii_of_string s).

Fixpoint pystr_eqb (a b : pystr) : bool :=
  match a, b with
  | [], [] => true
  | x :: a', y :: b' => (x =? y) && pystr_eqb a' b'
  | _, _ => false
  end.

(** [a in b] on two strings: [a] occurs in [b] as a contiguous run. *)
Fixpoint starts_with (a b : pystr) : bool :=
  match a, b with
  | [], _ => true
  | x :: a', y :: b' => (x =? y) && starts_with a' b'
  | _ :: _, [] => false
  end.

Fixpoint substring_of (a b : pystr) : bool :=
  starts_with a b ||
  match b with
  | [] => false
  | _ :: b' => substring_of a b'
  end.

(** ** The part of the Unicode database the script relies on *)

(** [str.isspace] on one code point: the characters [str.strip()] removes. *)
Definition is_space (c : char) : bool :=
  ((9 <=? c) && (c <=? 13)) || ((28 <=? c) && (c <=? 32)) ||
  (c =? 133) || (c =? 160) || (c =? 5760) ||
  ((8192 <=? c) && (c <=? 8202)) || (c =? 8232) || (c =? 8233) ||
  (c =? 8239) || (c =? 8287) || (c =? 12288).

(** The whitespace of the C locale, which is what [int()] skips around the
    digits once the string has been brought to ASCII. *)
Definition is_ascii_space (c : char) : bool :=
  ((9 <=? c) && (c <=? 13)) || (c =? 32).

Definition is_ascii_digit (c : char) : bool := (48 <=? c) && (c <=? 57).

Section Unicode.

(** The decimal digit value of a code point outside ASCII (general category
    Nd).  The table belongs to the interpreter and grows with each Unicode
    release, so it is a parameter; inside ASCII the digits are fixed. *)
Variable nonascii_decimal : char -> option N.

Definition decimal_value (c : char) : option N :=
  if c <? 128 then
    if is_ascii_digit c then Some (c - 48) else None
  else nonascii_decimal c.

(** [\d] of a [str] pattern without [re.ASCII]. *)
Definition is_decimal (c : char) : bool :=
  match decimal_value c with Some _ => true | None => false end.

(** ** Regular expressions, as far as [SEMVER_RE] uses them *)

(** The pattern language of the one pattern in the script: [^], [$],
    a literal, a character range, [\d], a starred character class,
    alternation and concatenation.  Groups only bracket, since the script
    never reads a group back. *)
Inductive charclass : Type :=
| CLit (c : char)
| CRange (lo hi : char)
| CDigit.

Inductive regex : Type :=
| Bol
| Eol
| One (cl : charclass)
| Star (cl : charclass)
| Alt (r1 r2 : regex)
| Seq (r1 r2 : regex).

Definition in_class (cl : charclass) (c : char) : bool :=
  match cl with
  | CLit d => c =? d
  | CRange lo hi => (lo <=? c) && (c <=? hi)
  | CDigit => is_decimal c
  end.

(** [$] without [re.MULTILINE]: at the end of the string, or just before a
    newline that is the last character. *)
Definition at_end (rest : pystr) : bool :=
  match rest with
  | [] => true
  | [c] => c =? 10
  | _ => false
  end.

(** Greedy repetition of a class, backtracking into the continuation. *)
Fixpoint star_from (cl : charclass) (k : nat -> pystr -> bool)
         (i : nat) (s : pystr) : bool :=
  match s with
  | c :: s' =>
      (in_class cl c && star_from cl k (S i) s') || k i s
  | [] => k i s
  end.

(** Backtracking matcher in continuation-passing style: [i] is the offset
    of [s] in the subject, [k] what remains to be matched. *)
Fixpoint matches (r : regex) (k : nat -> pystr -> bool)
         (i : nat) (s : pystr) : bool :=
  match r with
  | Bol => Nat.eqb i 0 && k i s
  | Eol => at_end s && k i s
  | One cl =>
      match s with
      | c :: s' => in_class cl c && k (S i) s'
      | [] => false
      end
  | Star cl => star_from cl k i s
  | Alt r1 r2 => matches r1 k i s || matches r2 k i s
  | Seq r1 r2 => matches r1 (matches r2 k) i s
  end.

(** [pattern.match(s)] is truthy: the pattern matches at offset 0; what
    follows the match is not looked at. *)
Definition re_match (r : regex) (s : pystr) : bool :=
  matches r (fun _ _ => true) 0%nat s.

(** One numeric component: a lone [0], or a digit [1-9] followed by any
    number of [\d]. *)
Definition semver_component : regex :=
  Alt (One (CLit 48)) (Seq (One (CRange 49 57)) (Star CDigit)).

(** [SEMVER_RE]: [^], three components separated by literal dots, [$]. *)
Definition SEMVER_RE : regex :=
  Seq Bol
   (Seq semver_component (Seq (One (CLit 46))
   (Seq semver_component (Seq (One (CLit 46))
   (Seq semver_component Eol))))).

End Unicode.

(** ** Python values *)

(** A [float], as far as the script can tell floats apart: it only tests
    their type and their truth value. *)
Inductive pyfloat : Type :=
| FFinite (mantissa exponent : Z)
| FInf (negative : bool)
| FNan.

(** What [json.load] returns.  A [dict] is the list of its bindings, each
    key once. *)
Inductive pyval : Type :=
| PNone
| PBool (b : bool)
| PInt (z : Z)
| PFloat (f : pyfloat)
| PStr (s : pystr)
| PList (items : list pyval)
| PDict (kvs : list (pystr * pyval)).

Definition is_empty {A : Type} (l : list A) : bool :=
  match l with [] => true | _ :: _ => false end.

(** [bool(v)] *)
Definition truthy (v : pyval) : bool :=
  match v with
  | PNone => false
  | PBool b => b
  | PInt z => negb (z =? 0)%Z
  | PFloat (FFinite m _) => negb (m =? 0)%Z
  | PFloat _ => true
  | PStr s => negb (is_empty s)
  | PList items => negb (is_empty items)
  | PDict kvs => negb (is_empty kvs)
  end.

Definition is_dict (v : pyval) : bool :=
  match v with PDict _ => true | _ => false end.

(** [isinstance(v, int)] with the integer behind it: [bool] is a subclass
    of [int], with [True == 1] and [False == 0]. *)
Definition as_int (v : pyval) : option Z :=
  match v with
  | PInt z => Some z
  | PBool b => Some (if b then 1 else 0)%Z
  | _ => None
  end.

Fixpoint dict_get (kvs : list (pystr * pyval)) (key : pystr) : option pyval :=
  match kvs with
  | [] => None
  | (k, v) :: kvs' => if pystr_eqb k key then Some v else dict_get kvs' key
  end.

(** [v == key] for a [str] key: only an equal [str] is equal to it. *)
Definition eq_str (key : pystr) (v : pyval) : bool :=
  match v with PStr s => pystr_eqb s key | _ => false end.

(** ** Outcomes *)

Inductive pyexn : Type :=
| TypeError
| KeyError
| AttributeError
| ValueError.

(** How a call ends: it returns; it prints [line] and leaves through
    [sys.exit(1)]; it raises an exception nobody catches; or it steps
    outside the fragment of Python embedded here (an ordering of values
    that are not integers, the text of a float, list or dict), which
    never happens on records [validate_payload] has let through. *)
Inductive res (A : Type) : Type :=
| Ok (a : A)
| Exit1 (line : pystr)
| Raised (e : pyexn)
| Unmodelled.

Arguments Ok {A} a.
Arguments Exit1 {A} line.
Arguments Raised {A} e.
Arguments Unmodelled {A}.

Definition bind {A B : Type} (c : res A) (k : A -> res B) : res B :=
  match c with
  | Ok a => k a
  | Exit1 line => Exit1 line
  | Raised e => Raised e
  | Unmodelled => Unmodelled
  end.

Notation "x <- c ;; k" := (bind c (fun x => k))
  (at level 61, c at next level, right associativity).

(** [fail]: print the message behind [ERROR: ] and exit with status 1. *)
Definition fail {A : Type} (message : pystr) : res A :=
  Exit1 (str "ERROR: " ++ message).

(** ** Operations of the language the script uses *)

(** [key in data] *)
Definition py_in (key : pystr) (data : pyval) : res bool :=
  match data with
  | PDict kvs =>
      Ok (match dict_get kvs key with Some _ => true | None => false end)
  | PList items => Ok (existsb (eq_str key) items)
  | PStr s => Ok (substring_of key s)
  | _ => Raised TypeError
  end.

(** [data[key]] with a [str] key *)
Definition py_getitem (data : pyval) (key : pystr) : res pyval :=
  match data with
  | PDict kvs =>
      match dict_get kvs key with
      | Some v => Ok v
      | None => Raised KeyError
      end
  | _ => Raised TypeError
  end.

(** [data.get(key, default)] *)
Definition py_get (data : pyval) (key : pystr) (default : pyval) : res pyval :=
  match data with
  | PDict kvs =>
      Ok (match dict_get kvs key with Some v => v | None => default end)
  | _ => Raised AttributeError
  end.

(** The items a [for] loop runs over. *)
Definition py_iter (v : pyval) : res (list pyval) :=
  match v with
  | PList items => Ok items
  | PStr s => Ok (map (fun c => PStr [c]) s)
  | PDict kvs => Ok (map (fun kv => PStr (fst kv)) kvs)
  | _ => Raised TypeError
  end.

(** [a <= b] on integers (and booleans). *)
Definition py_le (a b : pyval) : res bool :=
  match as_int a, as_int b with
  | Some x, Some y => Ok (x <=? y)%Z
  | _, _ => Unmodelled
  end.

(** [str(z)] for an [int], when it returns: the decimal writing of [z].
    The interpreter refuses to write an integer of more digits than its
    cap on conversions (see [over_cap] below); the integers the script
    writes come out of [json.load], which reads them with [int] under the
    same cap, and where an integer is written that does not, the cap is
    a hypothesis. *)
Definition str_of_int (z : Z) : pystr :=
  str (NilZero.string_of_int (Z.to_int z)).

(** The text an f-string puts in the place of a value. *)
Definition format_value (v : pyval) : res pystr :=
  match v with
  | PNone => Ok (str "None")
  | PBool true => Ok (str "True")
  | PBool false => Ok (str "False")
  | PInt z => Ok (str_of_int z)
  | PStr s => Ok s
  | _ => Unmodelled
  end.

Fixpoint drop_while {A : Type} (p : A -> bool) (l : list A) : list A :=
  match l with
  | x :: l' => if p x then drop_while p l' else l
  | [] => []
  end.

(** [s.strip()] *)
Definition strip (s : pystr) : pystr :=
  rev (drop_while is_space (rev (drop_while is_space s))).

(** [s.split(sep)] for a separator of one character. *)
Fixpoint split_on (sep : char) (s : pystr) : list pystr :=
  match s with
  | [] => [[]]
  | c :: s' =>
      if c =? sep then [] :: split_on sep s'
      else match split_on sep s' with
           | part :: parts => (c :: part) :: parts
           | [] => [[c]]
           end
  end.

(** Tuples of three integers and their lexicographic order. *)
Abbreviation semver := (Z * Z * Z)%type (only parsing).

Definition tuple_ltb (x y : semver) : bool :=
  let '(x1, x2, x3) := x in
  let '(y1, y2, y3) := y in
  ((x1 <? y1) || ((x1 =? y1) &&
    ((x2 <? y2) || ((x2 =? y2) && (x3 <? y3)))))%Z.

Definition tuple_leb (x y : semver) : bool :=
  let '(x1, x2, x3) := x in
  let '(y1, y2, y3) := y in
  ((x1 <? y1) || ((x1 =? y1) &&
    ((x2 <? y2) || ((x2 =? y2) && (x3 <=? y3)))))%Z.

(** ** The collaborators *)

(** Everything a run reads from outside: the process environment, the
    files of the working tree, the [json] decoder and the commands run
    through [subprocess.check_output].  A file that cannot be opened is
    absent ([FileNotFoundError]); text that does not decode carries the
    text of its [JSONDecodeError]; a command that ends with a non-zero
    status ([CalledProcessError]) has no output. *)
Record World : Type := {
  environ : pystr -> option pystr;
  read_text : pystr -> option pystr;
  json_loads : pystr -> pyval + pystr;
  check_output : list pystr -> option pystr
}.

(** ** The script *)

Definition VERSION_PATH : pystr := str "Docs/version.json".

Definition RELEASE_LABELS : list pystr := [str "release"].

Definition read_json (w : World) (path : pystr) : res pyval :=
  match read_text w path with
  | None => fail (str "Missing " ++ path)
  | Some text =>
      match json_loads w text with
      | inl data => Ok data
      | inr exc => fail (str "Invalid JSON in " ++ path ++ str ": " ++ exc)
      end
  end.

Definition git_show (w : World) (ref path : pystr) : option pystr :=
  match check_output w [str "git"; str "show"; ref ++ str ":" ++ path] with
  | Some output => Some (strip output)
  | None => None
  end.

Definition file_changed (w : World) (base_ref path : pystr) : bool :=
  match check_output w
          [str "git"; str "diff"; str "--name-only";
           base_ref ++ str "...HEAD"; str "--"; path] with
  | Some output => negb (is_empty (strip output))
  | None => false
  end.

(** The body of the loop over the labels: [labels] is a set, so a name
    that cannot be hashed makes [labels.add] raise. *)
Fixpoint add_labels (items : list pyval) (labels : list pyval)
  : res (list pyval) :=
  match items with
  | [] => Ok labels
  | label :: items' =>
      name <- (if is_dict label then py_get label (str "name") PNone
               else Ok PNone) ;;
      if truthy name then
        match name with
        | PList _ | PDict _ => Raised TypeError
        | _ => add_labels items' (name :: labels)
        end
      else add_labels items' labels
  end.

Definition parse_labels_from_event (w : World) : res (list pyval) :=
  match environ w (str "GITHUB_EVENT_PATH") with
  | None => Ok []
  | Some event_path =>
      if is_empty event_path then Ok [] else
      match read_text w event_path with
      | None => Ok []
      | Some text =>
          match json_loads w text with
          | inr _ => Ok []
          | inl event =>
              pr <- py_get event (str "pull_request") PNone ;;
              if truthy pr && is_dict pr then
                found <- py_get pr (str "labels") (PList []) ;;
                items <- py_iter (if truthy found then found else PList []) ;;
                add_labels items []
              else Ok []
          end
      end
  end.

(** [bool(RELEASE_LABELS & labels)] *)
Definition release_requested_of (labels : list pyval) : bool :=
  existsb (fun wanted => existsb (eq_str wanted) labels) RELEASE_LABELS.

Definition base_candidates : list pystr :=
  [str "origin/main"; str "origin/master"; str "main"; str "master"].

Definition resolve_base_ref (w : World) : option pystr :=
  let probe :=
    find (fun candidate =>
            match check_output w
                    [str "git"; str "rev-parse"; str "--verify"; candidate]
            with Some _ => true | None => false end)
         base_candidates in
  match environ w (str "GITHUB_BASE_REF") with
  | Some base_ref =>
      if is_empty base_ref then probe else Some (str "origin/" ++ base_ref)
  | None => probe
  end.

Section Script.

Variable nonascii_decimal : char -> option N.

(** The interpreter's cap on the digits of one conversion between [int]
    and [str], [sys.get_int_max_str_digits()]: 4300 unless the interpreter
    was started or set otherwise, 0 for no cap. *)
Variable max_str_digits : N.

(** *** [int(s)] *)

(** A conversion of [digits] digits is refused.  Up to 640 digits always
    pass; beyond, the cap decides when it is not 0. *)
Definition over_cap (digits : N) : bool :=
  (640 <? digits) && (0 <? max_str_digits) && (max_str_digits <? digits).

(** First step of [int] on a [str]: characters below 127 stay, any other
    whitespace becomes a blank, any other decimal digit its ASCII digit,
    and anything else makes the conversion fail. *)
Definition to_ascii_char (c : char) : option char :=
  if c <? 127 then Some c
  else if is_space c then Some 32
  else match decimal_value nonascii_decimal c with
       | Some d => Some (48 + d)
       | None => None
       end.

Fixpoint to_ascii (s : pystr) : option pystr :=
  match s with
  | [] => Some []
  | c :: s' =>
      match to_ascii_char c, to_ascii s' with
      | Some c', Some t => Some (c' :: t)
      | _, _ => None
      end
  end.

(** The run of digits, where single underscores may sit between digits:
    the value read so far, the number of digits read so far, whether the
    last character was an underscore, and what follows the run. *)
Fixpoint scan_digits (acc : Z) (digits : N) (after_underscore : bool)
         (t : pystr) : option (Z * N * pystr) :=
  match t with
  | c :: t' =>
      if is_ascii_digit c then
        scan_digits (10 * acc + Z.of_N (c - 48)) (digits + 1) false t'
      else if c =? 95 then
        if after_underscore then None
        else scan_digits acc digits true t'
      else if after_underscore then None else Some (acc, digits, t)
  | [] => if after_underscore then None else Some (acc, digits, [])
  end.

(** [int(s)] in base ten: blanks, an optional sign, the digits, blanks.
    A run of more digits than the cap allows raises [ValueError], as a
    malformed string does. *)
Definition py_int (s : pystr) : res Z :=
  match to_ascii s with
  | None => Raised ValueError
  | Some t =>
      let t1 := drop_while is_ascii_space t in
      let '(negative, t2) :=
        match t1 with
        | c :: r =>
            if c =? 43 then (false, r)
            else if c =? 45 then (true, r)
            else (false, t1)
        | [] => (false, t1)
        end in
      match t2 with
      | c :: _ =>
          if is_ascii_digit c then
            match scan_digits 0 0 false t2 with
            | Some (n, digits, rest) =>
                if over_cap digits then Raised ValueError
                else if is_empty (drop_while is_ascii_space rest)
                then Ok (if negative then - n else n)%Z
                else Raised ValueError
            | None => Raised ValueError
            end
          else Raised ValueError
      | [] => Raised ValueError
      end
  end.

Definition semver_tuple (version : pyval) : res semver :=
  match version with
  | PStr s =>
      match split_on 46 s with
      | [major; minor; patch] =>
          a <- py_int major ;;
          b <- py_int minor ;;
          c <- py_int patch ;;
          Ok (a, b, c)
      | _ => Raised ValueError
      end
  | _ => Raised AttributeError
  end.

Definition validate_payload (data : pyval) (source : pystr) : res unit :=
  has_version <- py_in (str "marketing_version") data ;;
  if negb has_version then fail (source ++ str " missing marketing_version")
  else
  has_build <- py_in (str "build_number") data ;;
  if negb has_build then fail (source ++ str " missing build_number")
  else
  marketing_version <- py_getitem data (str "marketing_version") ;;
  build_number <- py_getitem data (str "build_number") ;;
  match marketing_version with
  | PStr s =>
      if negb (re_match nonascii_decimal SEMVER_RE s)
      then fail (source ++ str " marketing_version must be SemVer (x.y.z)")
      else
        match as_int build_number with
        | None => fail (source ++ str " build_number must be an integer")
        | Some b =>
            if (b <? 0)%Z
            then fail (source ++ str " build_number must be >= 0")
            else Ok tt
        end
  | _ => fail (source ++ str " marketing_version must be a string")
  end.

(** The body of [if changed:] in [main]: build number first, then the
    two comparisons of the version tuples. *)
Definition compare_changed (current base : pyval) (release_requested : bool)
  : res unit :=
  current_build <- py_getitem current (str "build_number") ;;
  base_build <- py_getitem base (str "build_number") ;;
  not_increased <- py_le current_build base_build ;;
  if not_increased then
    shown_current <- format_value current_build ;;
    shown_base <- format_value base_build ;;
    fail (str "build_number must increase (current " ++ shown_current ++
          str ", base " ++ shown_base ++ str ")")
  else
  current_marketing <- py_getitem current (str "marketing_version") ;;
  current_version <- semver_tuple current_marketing ;;
  base_marketing <- py_getitem base (str "marketing_version") ;;
  base_version <- semver_tuple base_marketing ;;
  if tuple_ltb current_version base_version then
    shown_current <- format_value current_marketing ;;
    shown_base <- format_value base_marketing ;;
    fail (str "marketing_version must not decrease (current " ++
          shown_current ++ str ", base " ++ shown_base ++ str ")")
  else
  if release_requested && tuple_leb current_version base_version then
    shown_current <- format_value current_marketing ;;
    shown_base <- format_value base_marketing ;;
    fail (str "marketing_version must increase for release label (current "
          ++ shown_current ++ str ", base " ++ shown_base ++ str ")")
  else Ok tt.

(** [main]: [Ok line] is a run that prints [line] and returns (status 0). *)
Definition main (w : World) : res pystr :=
  current <- read_json w VERSION_PATH ;;
  _ <- validate_payload current VERSION_PATH ;;
  match resolve_base_ref w with
  | None => Ok (str "No base ref detected; validated current version only.")
  | Some base_ref =>
      if is_empty base_ref
      then Ok (str "No base ref detected; validated current version only.")
      else
      let changed := file_changed w base_ref VERSION_PATH in
      labels <- parse_labels_from_event w ;;
      let release_requested := release_requested_of labels in
      if release_requested && negb changed then
        fail (VERSION_PATH ++
              str " must be updated when release label is applied")
      else
      match git_show w base_ref VERSION_PATH with
      | None =>
          Ok (VERSION_PATH ++ str " not found on " ++ base_ref ++
              str "; treating as initial version.")
      | Some base_contents =>
          match json_loads w base_contents with
          | inr exc =>
              fail (str "Invalid JSON in " ++ VERSION_PATH ++ str " at " ++
                    base_ref ++ str ": " ++ exc)
          | inl base =>
              _ <- validate_payload base
                     (VERSION_PATH ++ str " at " ++ base_ref) ;;
              _ <- (if changed
                    then compare_changed current base release_requested
                    else Ok tt) ;;
              Ok (str "Versioning validation passed.")
          end
      end
  end.

End Script.

(** ** The shape of a version string *)

Section Shape.

Variable nonascii_decimal : char -> option N.

(** One component as the specification words it: the literal [0], or a
    run of decimal digits that does not start with a zero. *)
Definition componentb (a : pystr) : bool :=
  match a with
  | [] => false
  | [48] => true
  | d :: ds =>
      (49 <=? d) && (d <=? 57) && forallb (is_decimal nonascii_decimal) ds
  end.

(** Exactly [MAJOR.MINOR.PATCH], nothing before, between or after. *)
Definition strict_semver (s : pystr) : Prop :=
  exists major minor patch,
    s = major ++ 46 :: minor ++ 46 :: patch /\
    componentb major = true /\ componentb minor = true /\
    componentb patch = true.

(** The number a run of decimal digits denotes. *)
Definition digit_of (c : char) : Z :=
  match decimal_value nonascii_decimal c with
  | Some d => Z.of_N d
  | None => 0%Z
  end.

Definition number_of (a : pystr) : Z :=
  fold_left (fun acc c => (10 * acc + digit_of c)%Z) a 0%Z.

(** The two fields of a record: the version string, the value stored as
    build number and the integer it stands for. *)
Definition has_fields (data : pyval) (version : pystr) (build_value : pyval)
           (build : Z) : Prop :=
  py_getitem data (str "marketing_version") = Ok (PStr version) /\
  py_getitem data (str "build_number") = Ok build_value /\
  as_int build_value = Some build.

End Shape.

(** ** Sample tables, records and worlds *)

(** A table with no decimal digit outside ASCII. *)
Definition ascii_digits_only : char -> option N := fun _ => None.

(** A table with the Arabic-Indic digits, U+0660 to U+0669. *)
Definition arabic_indic_digits : char -> option N :=
  fun c => if (1632 <=? c) && (c <=? 1641) then Some (c - 1632) else None.

Definition record (version : pyval) (build : pyval) : pyval :=
  PDict [(str "marketing_version", version); (str "build_number", build)].

Fixpoint lookup_str {A : Type} (table : list (pystr * A)) (key : pystr)
  : option A :=
  match table with
  | [] => None
  | (k, v) :: table' =>
      if pystr_eqb k key then Some v else lookup_str table' key
  end.

Fixpoint args_eqb (a b : list pystr) : bool :=
  match a, b with
  | [], [] => true
  | x :: a', y :: b' => pystr_eqb x y && args_eqb a' b'
  | _, _ => false
  end.

Fixpoint lookup_args (table : list (list pystr * pystr)) (key : list pystr)
  : option pystr :=
  match table with
  | [] => None
  | (k, v) :: table' =>
      if args_eqb k key then Some v else lookup_args table' key
  end.

(** A world given by four tables: variables, files, the documents the
    decoder knows, and the commands that succeed with their output. *)
Definition table_world (variables files : list (pystr * pystr))
           (documents : list (pystr * pyval))
           (commands : list (list pystr * pystr)) : World :=
  {| environ := lookup_str variables;
     read_text := lookup_str files;
     json_loads := fun text =>
       match lookup_str documents text with
       | Some v => inl v
       | None => inr (str "Expecting value: line 1 column 1 (char 0)")
       end;
     check_output := lookup_args commands |}.

Definition git_diff_args (base_ref : pystr) : list pystr :=
  [str "git"; str "diff"; str "--name-only"; base_ref ++ str "...HEAD";
   str "--"; VERSION_PATH].

Definition git_show_args (base_ref : pystr) : list pystr :=
  [str "git"; str "show"; base_ref ++ str ":" ++ VERSION_PATH].

Definition git_verify_args (candidate : pystr) : list pystr :=
  [str "git"; str "rev-parse"; str "--verify"; candidate].

(** The event of a pull request carrying the given label names. *)
Definition labelled_event (names : list pystr) : pyval :=
  PDict [(str "pull_request",
          PDict [(str "labels",
                  PList (map (fun n => PDict [(str "name", PStr n)]) names))])].

Definition version_record (version : string) (build : Z) : pyval :=
  record (PStr (str version)) (PInt build).

(** JSON documents: a text paired with the value it decodes to. *)
Definition quoted (s : pystr) : pystr := 34 :: s ++ [34].

Fixpoint joined (sep : pystr) (parts : list pystr) : pystr :=
  match parts with
  | [] => []
  | [part] => part
  | part :: parts' => part ++ sep ++ joined sep parts'
  end.

Definition version_document (version : string) (build : Z)
  : pystr * pyval :=
  (str "{" ++ quoted (str "marketing_version") ++ str ": " ++
   quoted (str version) ++ str ", " ++ quoted (str "build_number") ++
   str ": " ++ str_of_int build ++ str "}",
   version_record version build).

Definition event_document (names : list pystr) : pystr * pyval :=
  (str "{" ++ quoted (str "pull_request") ++ str ": {" ++
   quoted (str "labels") ++ str ": [" ++
   joined (str ", ")
     (map (fun n => str "{" ++ quoted (str "name") ++ str ": " ++
                    quoted n ++ str "}") names) ++
   str "]}}",
   labelled_event names).

Definition null_document : pystr * pyval := (str "null", PNone).

(** A pull request against [main]: the working tree holds the document
    [current], the base branch the document [base]; [diff] is what
    [git diff --name-only] prints and [event] the event file.  The decoder
    is [json.loads] cut down to the three documents. *)
Definition pull_request_world (current base event : pystr * pyval)
           (diff : pystr) : World :=
  table_world
    [(str "GITHUB_BASE_REF", str "main");
     (str "GITHUB_EVENT_PATH", str "event.json")]
    [(VERSION_PATH, fst current); (str "event.json", fst event)]
    [current; base; event]
    [(git_diff_args (str "origin/main"), diff);
     (git_show_args (str "origin/main"), fst base ++ [10])].

(** What [git diff --name-only] prints when the version file differs. *)
Definition version_file_listed : pystr := VERSION_PATH ++ [10].


(** Build number raised, version as at the baseline, release requested. *)
Definition release_same_version_world : World :=
  pull_request_world (version_document "1.2.0" 6)
    (version_document "1.2.0" 5) (event_document [str "release"])
    version_file_listed.

(** Build number and version raised, release requested. *)
Definition release_bumped_world : World :=
  pull_request_world (version_document "1.3.0" 6)
    (version_document "1.2.0" 5) (event_document [str "release"])
    version_file_listed.

(** Version below the baseline's, build number raised, file changed. *)
Definition regressed_changed_world : World :=
  pull_request_world (version_document "1.0.0" 6)
    (version_document "2.0.0" 5) (event_document []) version_file_listed.

(** Version below the baseline's, and the diff lists nothing: the base
    branch moved on after the branch point. *)
Definition regressed_unchanged_world : World :=
  pull_request_world (version_document "1.0.0" 5)
    (version_document "2.0.0" 5) (event_document []) [].

(** A release requested on an unchanged file, the baseline holding
    [null] in place of a record. *)
Definition release_unchanged_world : World :=
  pull_request_world (version_document "1.2.0" 5) null_document
    (event_document [str "release"]) [].

(** No hint and no branch that verifies. *)
Definition no_base_world : World :=
  table_world [] [(VERSION_PATH, fst (version_document "1.2.0" 5))]
    [version_document "1.2.0" 5] [].

(** A hint, and a store that answers no command. *)
Definition first_version_world : World :=
  table_world [(str "GITHUB_BASE_REF", str "main")]
    [(VERSION_PATH, fst (version_document "1.2.0" 5))]
    [version_document "1.2.0" 5] [].

(** The hint set to the empty string, as on a push, and only [master]
    verifying. *)
Definition empty_hint_world : World :=
  table_world [(str "GITHUB_BASE_REF", [])] [] []
    [(git_verify_args (str "master"), str "0123abc")].

(** The hint set to the empty string and no branch that verifies. *)
Definition empty_hint_no_branch_world : World :=
  table_world [(str "GITHUB_BASE_REF", [])] [] [] [].

(** The hint naming a branch the store does not know. *)
Definition unknown_hint_world : World :=
  table_world [(str "GITHUB_BASE_REF", str "gone")] [] [] [].

(** A diff that prints one path. *)
Definition diff_world : World :=
  table_world [] [] []
    [(git_diff_args (str "origin/main"), version_file_listed)].

(** [1.2.3] with an Arabic-Indic four behind the three, and a newline. *)
Definition mixed_digits_version : pystr := str "1.2.3" ++ [1636; 10].

(** ** The digit cap on a version *)

(** The number of decimal digits in one part of a version. *)
Definition digit_count (nonascii_decimal : char -> option N) (part : pystr)
  : N :=
  N.of_nat (List.length (filter (is_decimal nonascii_decimal) part)).

(** No part of the version, split on its dots, has more digits than the
    cap lets [int] read. *)
Definition version_within_cap (nonascii_decimal : char -> option N)
           (max_str_digits : N) (version : pystr) : bool :=
  forallb (fun part =>
             negb (over_cap max_str_digits
                     (digit_count nonascii_decimal part)))
          (split_on 46 version).

(** A version the pattern accepts and whose last component has 4301
    digits, one more than the interpreter's default cap. *)
Definition long_patch_version : pystr := str "1.0." ++ repeat 57 4301.

(** The working tree holds the long version with build number 6, the
    baseline [1.0.0] with build number 5, and the diff lists the file. *)
Definition long_version_document : pystr * pyval :=
  (str "{" ++ quoted (str "marketing_version") ++ str ": " ++
   quoted long_patch_version ++ str ", " ++ quoted (str "build_number") ++
   str ": 6}",
   record (PStr long_patch_version) (PInt 6)).

Definition long_version_world : World :=
  pull_request_world long_version_document (version_document "1.0.0" 5)
    (event_document []) version_file_listed.

(** No hint, and [origin/master] the only branch that verifies. *)
Definition unset_hint_world : World :=
  table_world [] [] []
    [(git_verify_args (str "origin/master"), str "0123abc")].

(** ** Vocabulary of the further properties *)

(** The [name] the loop over the labels reads off one entry: the value
    under [name] of a dict, [None] for anything else. *)
Definition label_name (label : pyval) : pyval :=
  match label with
  | PDict kvs =>
      match dict_get kvs (str "name") with
      | Some v => v
      | None => PNone
      end
  | _ => PNone
  end.

(** The values a [set] refuses: a list or a dict cannot be hashed. *)
Definition unhashable (v : pyval) : bool :=
  match v with
  | PList _ | PDict _ => true
  | _ => false
  end.

(** A name that makes [labels.add] raise. *)
Definition breaks_labels (label : pyval) : bool :=
  truthy (label_name label) && unhashable (label_name label).

(** A line as [fail] prints it. *)
Definition error_line (line : pystr) : Prop :=
  exists message, line = str "ERROR: " ++ message.

(** The three lines a passing run can end on. *)
Definition success_line (line : pystr) : Prop :=
  line = str "No base ref detected; validated current version only." \/
  (exists base_ref,
     line = VERSION_PATH ++ str " not found on " ++ base_ref ++
            str "; treating as initial version.") \/
  line = str "Versioning validation passed.".

(** The baseline holds a version that is not of the form x.y.z; the file
    is unchanged and no release is requested. *)
Definition bad_baseline_world : World :=
  pull_request_world (version_document "1.2.0" 5)
    (version_document "1.2" 5) (event_document []) [].

(** The baseline holds an empty version file, which does not decode. *)
Definition undecodable_baseline_world : World :=
  table_world
    [(str "GITHUB_BASE_REF", str "main")]
    [(VERSION_PATH, fst (version_document "1.2.0" 5))]
    [version_document "1.2.0" 5]
    [(git_show_args (str "origin/main"), [])].


(** The text of a version whose components are the integers [major],
    [minor] and [patch], each written as [str] writes it. *)
Definition version_text (major minor patch : Z) : pystr :=
  str_of_int major ++ 46 :: str_of_int minor ++ 46 :: str_of_int patch.

(** The characters of a run of decimal digits. *)
Definition uint_chars (d : Decimal.uint) : pystr :=
  str (NilEmpty.string_of_uint d).

(** An event whose one label carries a list in place of its name. *)
Definition list_named_event : pystr * pyval :=
  (str "{" ++ quoted (str "pull_request") ++ str ": {" ++
   quoted (str "labels") ++ str ": [{" ++ quoted (str "name") ++
   str ": [" ++ quoted (str "x") ++ str "]}]}}",
   PDict [(str "pull_request",
           PDict [(str "labels",
                   PList [PDict [(str "name", PList [PStr (str "x")])]])])]).

Definition list_named_world : World :=
  pull_request_world (version_document "1.2.0" 5)
    (version_document "1.2.0" 5) list_named_event [].

(** * Properties *)

Section Properties.

Variable dec : char -> option N.

(** The cap on the digits of one conversion. *)
Variable cap : N.

(** The two facts about the digit table the proofs need: a digit value is
    below ten, and no whitespace character is a digit. *)
Hypothesis dec_below_ten : forall c d, dec c = Some d -> d < 10.
Hypothesis dec_not_space : forall c, is_space c = true -> dec c = None.

(** ** What the pattern accepts *)

Lemma star_digit_spec (k : nat -> pystr -> bool) (s : pystr) (i : nat) :
  star_from dec CDigit k i s = true <->
  exists ds rest,
    s = ds ++ rest /\ forallb (is_decimal dec) ds = true /\
    k (i + List.length ds)%nat rest = true.
Proof.
  revert i. induction s as [|c s IH]; intros i; simpl.
  - split.
    + intros H. exists [], []. simpl. rewrite Nat.add_0_r. auto.
    + intros (ds & rest & E & _ & H).
      symmetry in E. apply app_eq_nil in E. destruct E; subst.
      simpl in H. now rewrite Nat.add_0_r in H.
  - rewrite orb_true_iff, andb_true_iff, IH. split.
    + intros [[Hc (ds & rest & E & Hds & H)] | H].
      * exists (c :: ds), rest. subst s. simpl. rewrite Hc, Hds.
        rewrite Nat.add_succ_r. auto.
      * exists [], (c :: s). simpl. rewrite Nat.add_0_r. auto.
    + intros (ds & rest & E & Hds & H). destruct ds as [|d ds]; simpl in *.
      * right. subst rest. now rewrite Nat.add_0_r in H.
      * left. injection E as -> ->. apply andb_true_iff in Hds.
        destruct Hds as [Hd Hds]. split; [exact Hd|].
        exists ds, rest. rewrite Nat.add_succ_r in H. auto.
Qed.

Lemma component_spec (k : nat -> pystr -> bool) (s : pystr) (i : nat) :
  matches dec semver_component k i s = true <->
  exists a rest,
    s = a ++ rest /\ componentb dec a = true /\
    k (i + List.length a)%nat rest = true.
Proof.
  unfold semver_component. simpl matches.
  rewrite orb_true_iff. split.
  - intros [H | H].
    + destruct s as [|c s]; [discriminate|].
      apply andb_true_iff in H. destruct H as [Hc H].
      simpl in Hc. apply N.eqb_eq in Hc. subst c.
      exists [48], s. simpl. rewrite Nat.add_1_r. auto.
    + destruct s as [|c s]; [discriminate|].
      apply andb_true_iff in H. destruct H as [Hc H].
      apply star_digit_spec in H. destruct H as (ds & rest & -> & Hds & H).
      exists (c :: ds), rest. simpl in Hc |- *.
      rewrite Hc, Hds. rewrite Nat.add_succ_r. simpl in H.
      repeat split; auto.
      apply andb_true_iff in Hc. destruct Hc as [Hlo _].
      apply N.leb_le in Hlo.
      destruct (N.eqb_spec c 48); [lia|].
      destruct c as [|p]; [lia|].
      do 6 (destruct p as [p|p|]; try reflexivity; try lia).
  - intros (a & rest & -> & Ha & H).
    destruct a as [|d ds]; [discriminate|].
    simpl app.
    destruct (N.eqb_spec d 48) as [->|Hd].
    + destruct ds as [|d' ds].
      * left. simpl. now rewrite Nat.add_1_r in H.
      * simpl in Ha. discriminate.
    + right.
      assert (Hshape : (49 <=? d) && (d <=? 57) &&
                       forallb (is_decimal dec) ds = true).
      { revert Ha. unfold componentb.
        destruct d as [|p]; [auto|].
        do 6 (destruct p as [p|p|]; auto); congruence. }
      apply andb_true_iff in Hshape. destruct Hshape as [Hr Hds].
      simpl. rewrite Hr. simpl. apply star_digit_spec.
      exists ds, rest. simpl in H. rewrite Nat.add_succ_r in H. auto.
Qed.
Lemma dot_spec (k : nat -> pystr -> bool) (s : pystr) (i : nat) :
  matches dec (One (CLit 46)) k i s = true <->
  exists rest, s = 46 :: rest /\ k (S i) rest = true.
Proof.
  simpl. destruct s as [|c s].
  - split; [discriminate|]. intros (rest & E & _). discriminate.
  - rewrite andb_true_iff, N.eqb_eq. split.
    + intros [-> H]. eauto.
    + intros (rest & E & H). injection E as -> ->. auto.
Qed.

Lemma matches_seq (r1 r2 : regex) (k : nat -> pystr -> bool) :
  matches dec (Seq r1 r2) k = matches dec r1 (matches dec r2 k).
Proof. reflexivity. Qed.

Lemma matches_bol (k : nat -> pystr -> bool) (s : pystr) :
  matches dec Bol k 0%nat s = k 0%nat s.
Proof. reflexivity. Qed.

(** The strings [SEMVER_RE.match] accepts: three components separated by
    dots, and then the end of the string or one last newline. *)
Lemma semver_re_spec (s : pystr) :
  re_match dec SEMVER_RE s = true <->
  exists major minor patch tl,
    s = major ++ 46 :: minor ++ 46 :: patch ++ tl /\
    componentb dec major = true /\ componentb dec minor = true /\
    componentb dec patch = true /\ at_end tl = true.
Proof.
  unfold re_match, SEMVER_RE. rewrite !matches_seq, matches_bol. split.
  - intros H.
    apply component_spec in H. destruct H as (major & r1 & -> & Hmajor & H).
    apply dot_spec in H. destruct H as (r2 & -> & H).
    apply component_spec in H. destruct H as (minor & r3 & -> & Hminor & H).
    apply dot_spec in H. destruct H as (r4 & -> & H).
    apply component_spec in H. destruct H as (patch & tl & -> & Hpatch & H).
    simpl in H. rewrite andb_true_r in H.
    exists major, minor, patch, tl. auto.
  - intros (major & minor & patch & tl & -> & Hmajor & Hminor & Hpatch & Htl).
    apply component_spec. exists major, (46 :: minor ++ 46 :: patch ++ tl).
    split; [reflexivity|]. split; [assumption|].
    apply dot_spec. eexists. split; [reflexivity|].
    apply component_spec. exists minor, (46 :: patch ++ tl).
    split; [reflexivity|]. split; [assumption|].
    apply dot_spec. eexists. split; [reflexivity|].
    apply component_spec. exists patch, tl.
    split; [reflexivity|]. split; [assumption|].
    simpl. now rewrite Htl.
Qed.

(** ** Splitting and converting an accepted string *)

Local Arguments N.add : simpl never.
Local Arguments N.sub : simpl never.
Local Arguments Z.add : simpl never.
Local Arguments Z.mul : simpl never.

Ltac to_prop :=
  repeat match goal with
  | H : _ && _ = true |- _ => apply andb_true_iff in H; destruct H
  | H : (_ <=? _) = true |- _ => apply N.leb_le in H
  | H : (_ <? _) = true |- _ => apply N.ltb_lt in H
  | H : (_ <? _) = false |- _ => apply N.ltb_ge in H
  | H : (_ =? _) = true |- _ => apply N.eqb_eq in H
  end.

Lemma decimal_cases (c : char) :
  is_decimal dec c = true ->
  exists d, decimal_value dec c = Some d /\ d < 10 /\
            to_ascii_char dec c = Some (48 + d) /\ c <> 46.
Proof.
  unfold is_decimal, to_ascii_char, decimal_value.
  destruct (N.ltb_spec c 128) as [Hlt | Hge].
  - destruct (is_ascii_digit c) eqn:Hd; [|discriminate].
    intros _. unfold is_ascii_digit in Hd. to_prop.
    exists (c - 48). repeat split; try lia.
    destruct (N.ltb_spec c 127); [|lia]. f_equal. lia.
  - destruct (dec c) as [d|] eqn:Hd; [|discriminate].
    intros _. exists d. repeat split; try lia.
    + eauto.
    + destruct (N.ltb_spec c 127); [lia|].
      destruct (is_space c) eqn:Hs; [|reflexivity].
      apply dec_not_space in Hs. congruence.
Qed.

Lemma component_digits (a : pystr) :
  componentb dec a = true ->
  a <> [] /\ forallb (is_decimal dec) a = true.
Proof.
  destruct a as [|d ds]; [discriminate|]. intros H.
  split; [discriminate|].
  assert (Hd : is_decimal dec d = true /\
               forallb (is_decimal dec) ds = true).
  { destruct (N.eqb_spec d 48) as [->|Hne].
    - destruct ds; [auto|discriminate].
    - assert (Hshape : (49 <=? d) && (d <=? 57) &&
                       forallb (is_decimal dec) ds = true).
      { revert H. unfold componentb.
        destruct d as [|p]; [auto|].
        do 6 (destruct p as [p|p|]; auto); congruence. }
      to_prop. split; [|assumption].
      unfold is_decimal, decimal_value, is_ascii_digit.
      destruct (N.ltb_spec d 128); [|lia].
      destruct (N.leb_spec 48 d); [|lia].
      destruct (N.leb_spec d 57); [|lia]. reflexivity. }
  simpl. destruct Hd as [-> ->]. reflexivity.
Qed.

Lemma digits_no_dot (ds : pystr) :
  forallb (is_decimal dec) ds = true -> ~ In 46 ds.
Proof.
  induction ds as [|c ds IH]; simpl; [tauto|].
  intros H. apply andb_true_iff in H. destruct H as [Hc Hds].
  destruct (decimal_cases c Hc) as (d & _ & _ & _ & Hne).
  intros [E | Hin]; [congruence | now apply IH].
Qed.

Lemma split_on_whole (sep : char) (a : pystr) :
  ~ In sep a -> split_on sep a = [a].
Proof.
  induction a as [|c a IH]; simpl; [reflexivity|].
  intros H. destruct (N.eqb_spec c sep) as [->|_]; [tauto|].
  rewrite IH; tauto.
Qed.

Lemma split_on_first (sep : char) (a rest : pystr) :
  ~ In sep a -> split_on sep (a ++ sep :: rest) = a :: split_on sep rest.
Proof.
  induction a as [|c a IH]; simpl.
  - intros _. now rewrite N.eqb_refl.
  - intros H. destruct (N.eqb_spec c sep) as [->|_]; [tauto|].
    rewrite IH; tauto.
Qed.

Lemma at_end_cases (tl : pystr) :
  at_end tl = true -> tl = [] \/ tl = [10].
Proof.
  destruct tl as [|c [|c' tl]]; simpl; auto; [|discriminate].
  intros H. apply N.eqb_eq in H. subst. auto.
Qed.

Lemma to_ascii_digits (ds tl : pystr) :
  forallb (is_decimal dec) ds = true -> at_end tl = true ->
  to_ascii dec (ds ++ tl) =
  Some (map (fun c => 48 + Z.to_N (digit_of dec c)) ds ++ tl).
Proof.
  intros Hds Htl. induction ds as [|c ds IH]; simpl.
  - destruct (at_end_cases tl Htl) as [-> | ->]; reflexivity.
  - simpl in Hds. apply andb_true_iff in Hds. destruct Hds as [Hc Hds].
    destruct (decimal_cases c Hc) as (d & Hv & _ & Ha & _).
    rewrite Ha, (IH Hds). unfold digit_of. rewrite Hv.
    now rewrite N2Z.id.
Qed.

Lemma scan_digits_run (ds tl : pystr) (acc : Z) (n : N) :
  forallb (is_decimal dec) ds = true -> at_end tl = true ->
  scan_digits acc n false
    (map (fun c => 48 + Z.to_N (digit_of dec c)) ds ++ tl) =
  Some (fold_left (fun n c => (10 * n + digit_of dec c)%Z) ds acc,
        n + N.of_nat (List.length ds), tl).
Proof.
  intros Hds Htl. revert acc n.
  induction ds as [|c ds IH]; intros acc n; simpl.
  - rewrite N.add_0_r.
    destruct (at_end_cases tl Htl) as [-> | ->]; reflexivity.
  - simpl in Hds. apply andb_true_iff in Hds. destruct Hds as [Hc Hds].
    destruct (decimal_cases c Hc) as (d & Hv & Hd & _ & _).
    assert (Hdig : digit_of dec c = Z.of_N d)
      by (unfold digit_of; now rewrite Hv).
    rewrite !Hdig, N2Z.id.
    replace (is_ascii_digit (48 + d)) with true.
    + replace (48 + d - 48) with d by lia. rewrite (IH Hds).
      do 2 f_equal. f_equal. lia.
    + symmetry. unfold is_ascii_digit. apply andb_true_intro.
      split; apply N.leb_le; lia.
Qed.

(** [int] reads a run of decimal digits, followed or not by one newline,
    as the number the digits denote, unless the run is longer than the
    cap allows. *)
Lemma py_int_digits (ds tl : pystr) :
  ds <> [] -> forallb (is_decimal dec) ds = true -> at_end tl = true ->
  py_int dec cap (ds ++ tl) =
  if over_cap cap (N.of_nat (List.length ds)) then Raised ValueError
  else Ok (number_of dec ds).
Proof.
  intros Hne Hds Htl. unfold py_int.
  rewrite (to_ascii_digits ds tl Hds Htl).
  pose proof (scan_digits_run ds tl 0 0 Hds Htl) as Hscan.
  rewrite N.add_0_l in Hscan.
  destruct ds as [|c ds]; [congruence|].
  assert (Hc : is_decimal dec c = true).
  { simpl in Hds. apply andb_true_iff in Hds. tauto. }
  destruct (decimal_cases c Hc) as (d & Hv & Hd & _ & _).
  assert (Hdig : digit_of dec c = Z.of_N d)
    by (unfold digit_of; now rewrite Hv).
  simpl map in *. simpl app in *.
  rewrite Hdig, N2Z.id in *.
  assert (Hsp : is_ascii_space (48 + d) = false).
  { unfold is_ascii_space.
    destruct (N.leb_spec 9 (48 + d)), (N.leb_spec (48 + d) 13),
             (N.eqb_spec (48 + d) 32); simpl; auto; lia. }
  simpl drop_while. rewrite Hsp.
  destruct (N.eqb_spec (48 + d) 43); [lia|].
  destruct (N.eqb_spec (48 + d) 45); [lia|].
  replace (is_ascii_digit (48 + d)) with true.
  - rewrite Hscan.
    destruct (over_cap cap _); [reflexivity|].
    destruct (at_end_cases tl Htl) as [-> | ->]; reflexivity.
  - symmetry. unfold is_ascii_digit. apply andb_true_intro.
    split; apply N.leb_le; lia.
Qed.

Lemma semver_tuple_parts (major minor patch tl : pystr) :
  componentb dec major = true -> componentb dec minor = true ->
  componentb dec patch = true -> at_end tl = true ->
  split_on 46 (major ++ 46 :: minor ++ 46 :: patch ++ tl) =
    [major; minor; patch ++ tl] /\
  py_int dec cap major =
    (if over_cap cap (N.of_nat (List.length major)) then Raised ValueError
     else Ok (number_of dec major)) /\
  py_int dec cap minor =
    (if over_cap cap (N.of_nat (List.length minor)) then Raised ValueError
     else Ok (number_of dec minor)) /\
  py_int dec cap (patch ++ tl) =
    (if over_cap cap (N.of_nat (List.length patch)) then Raised ValueError
     else Ok (number_of dec patch)).
Proof.
  intros Hmajor Hminor Hpatch Htl.
  destruct (component_digits _ Hmajor) as [Nmajor Dmajor].
  destruct (component_digits _ Hminor) as [Nminor Dminor].
  destruct (component_digits _ Hpatch) as [Npatch Dpatch].
  split; [|split; [|split]].
  - rewrite split_on_first by now apply digits_no_dot.
    rewrite split_on_first by now apply digits_no_dot.
    rewrite split_on_whole; [reflexivity|].
    intros Hin. apply in_app_or in Hin. destruct Hin as [Hin | Hin].
    + now apply (digits_no_dot patch).
    + destruct (at_end_cases tl Htl) as [-> | ->]; simpl in Hin.
      * exact Hin.
      * destruct Hin as [E | []]. discriminate.
  - rewrite <- (app_nil_r major) at 1. now apply py_int_digits.
  - rewrite <- (app_nil_r minor) at 1. now apply py_int_digits.
  - now apply py_int_digits.
Qed.

Lemma filter_all {A : Type} (p : A -> bool) (l : list A) :
  forallb p l = true -> filter p l = l.
Proof.
  induction l as [|x l IH]; simpl; [reflexivity|].
  intros H. apply andb_true_iff in H. destruct H as [-> H].
  now rewrite IH.
Qed.

Lemma digit_count_run (ds tl : pystr) :
  forallb (is_decimal dec) ds = true -> at_end tl = true ->
  digit_count dec (ds ++ tl) = N.of_nat (List.length ds).
Proof.
  intros Hds Htl. unfold digit_count.
  rewrite filter_app, (filter_all _ _ Hds).
  destruct (at_end_cases tl Htl) as [-> | ->]; simpl;
    now rewrite app_nil_r.
Qed.

(** On a string the pattern accepts, [semver_tuple] returns the numbers
    of the three components, unless one of them is longer than the cap
    allows: then it raises [ValueError]. *)
Lemma semver_tuple_components (major minor patch tl : pystr) :
  componentb dec major = true -> componentb dec minor = true ->
  componentb dec patch = true -> at_end tl = true ->
  semver_tuple dec cap
    (PStr (major ++ 46 :: minor ++ 46 :: patch ++ tl)) =
  if version_within_cap dec cap
       (major ++ 46 :: minor ++ 46 :: patch ++ tl)
  then Ok (number_of dec major, number_of dec minor, number_of dec patch)
  else Raised ValueError.
Proof.
  intros Ha Hb Hc Htl.
  destruct (semver_tuple_parts _ _ _ _ Ha Hb Hc Htl) as (Hs & Ia & Ib & Ic).
  destruct (component_digits _ Ha) as [_ Da].
  destruct (component_digits _ Hb) as [_ Db].
  destruct (component_digits _ Hc) as [_ Dc].
  unfold semver_tuple, version_within_cap. rewrite Hs, Ia, Ib, Ic.
  cbn [forallb].
  assert (Ea : digit_count dec major = N.of_nat (List.length major))
    by (rewrite <- (app_nil_r major) at 1; now apply digit_count_run).
  assert (Eb : digit_count dec minor = N.of_nat (List.length minor))
    by (rewrite <- (app_nil_r minor) at 1; now apply digit_count_run).
  rewrite Ea, Eb, (digit_count_run patch tl Dc Htl).
  destruct (over_cap cap (N.of_nat (List.length major))),
           (over_cap cap (N.of_nat (List.length minor))),
           (over_cap cap (N.of_nat (List.length patch))); reflexivity.
Qed.

Lemma semver_tuple_accepted (s : pystr) :
  re_match dec SEMVER_RE s = true ->
  exists t,
    semver_tuple dec cap (PStr s) =
    if version_within_cap dec cap s then Ok t else Raised ValueError.
Proof.
  intros H. apply semver_re_spec in H.
  destruct H as (major & minor & patch & tl & -> & Ha & Hb & Hc & Htl).
  eexists. now apply semver_tuple_components.
Qed.

(** ** What [validate_payload] lets through *)

Lemma validate_ok_fields (data : pyval) (source : pystr) :
  validate_payload dec data source = Ok tt ->
  exists version build_value build,
    has_fields data version build_value build /\
    re_match dec SEMVER_RE version = true /\ (0 <= build)%Z.
Proof.
  unfold validate_payload, has_fields. intros H.
  destruct data as [| | | | |items|kvs]; try discriminate H.
  - simpl in H.
    destruct (substring_of _ _); [|discriminate H]. simpl in H.
    destruct (substring_of _ _); discriminate H.
  - simpl in H.
    destruct (existsb _ _); [|discriminate H]. simpl in H.
    destruct (existsb _ _); discriminate H.
  - simpl in H |- *.
    destruct (dict_get kvs (str "marketing_version")) as [mv|];
      [|discriminate H].
    simpl in H.
    destruct (dict_get kvs (str "build_number")) as [bn|];
      [|discriminate H].
    simpl in H.
    destruct mv as [| | | |version| |]; try discriminate H.
    destruct (re_match dec SEMVER_RE version) eqn:Hre; [|discriminate H].
    simpl in H.
    destruct (as_int bn) as [b|] eqn:Hb; [|discriminate H].
    destruct (Z.ltb_spec b 0); [discriminate H|].
    exists version, bn, b. auto.
Qed.

Lemma fields_validate_ok (data : pyval) (source version : pystr)
      (build_value : pyval) (build : Z) :
  has_fields data version build_value build ->
  re_match dec SEMVER_RE version = true -> (0 <= build)%Z ->
  validate_payload dec data source = Ok tt.
Proof.
  unfold validate_payload, has_fields. intros (Hv & Hb & Hi) Hre Hpos.
  destruct data as [| | | | | |kvs]; try discriminate Hv.
  simpl in Hv, Hb |- *.
  destruct (dict_get kvs (str "marketing_version")) as [mv|];
    [|discriminate Hv].
  destruct (dict_get kvs (str "build_number")) as [bn|];
    [|discriminate Hb].
  injection Hv as ->. injection Hb as ->.
  simpl. rewrite Hre, Hi. simpl.
  destruct (Z.ltb_spec build 0); [lia|reflexivity].
Qed.

(** An integer, or a boolean, has a text. *)
Lemma format_value_int (v : pyval) (z : Z) :
  as_int v = Some z -> exists shown, format_value v = Ok shown.
Proof.
  destruct v as [|[|]| | | | |]; simpl; try discriminate; eauto.
Qed.

(** ** The order of version tuples *)

Lemma tuple_ltb_irrefl (t : Z * Z * Z) : tuple_ltb t t = false.
Proof.
  destruct t as [[a b] c]. unfold tuple_ltb.
  rewrite !Z.ltb_irrefl, !Z.eqb_refl. reflexivity.
Qed.

Lemma tuple_leb_refl (t : Z * Z * Z) : tuple_leb t t = true.
Proof.
  destruct t as [[a b] c]. unfold tuple_leb.
  rewrite !Z.ltb_irrefl, !Z.eqb_refl, Z.leb_refl. reflexivity.
Qed.

Lemma tuple_ltb_asym (s t : Z * Z * Z) :
  tuple_ltb s t = true -> tuple_ltb t s = false /\ tuple_leb t s = false.
Proof.
  destruct s as [[a b] c], t as [[a' b'] c']. unfold tuple_ltb, tuple_leb.
  intros H.
  destruct (Z.ltb_spec a a'), (Z.eqb_spec a a'), (Z.ltb_spec b b'),
           (Z.eqb_spec b b'), (Z.ltb_spec c c'); simpl in H;
    try discriminate H;
    destruct (Z.ltb_spec a' a), (Z.eqb_spec a' a), (Z.ltb_spec b' b),
             (Z.eqb_spec b' b), (Z.ltb_spec c' c), (Z.leb_spec c' c);
    simpl; split; try reflexivity; lia.
Qed.

(** ** The flow of [main] *)

Lemma resolve_base_ref_not_empty (w : World) (base_ref : pystr) :
  resolve_base_ref w = Some base_ref -> is_empty base_ref = false.
Proof.
  unfold resolve_base_ref.
  assert (Hprobe : forall p, find p base_candidates = Some base_ref ->
                             is_empty base_ref = false).
  { intros p H. apply find_some in H. destruct H as [Hin _].
    simpl in Hin.
    destruct Hin as [<- | [<- | [<- | [<- | []]]]]; reflexivity. }
  destruct (environ w (str "GITHUB_BASE_REF")) as [name|]; [|apply Hprobe].
  destruct (is_empty name); [apply Hprobe|].
  intros H. injection H as <-. reflexivity.
Qed.

Section Comparison.

(** A run that gets as far as the baseline record: the current record is
    read and valid, a baseline ref resolves, the labels of the event are
    extracted, the version file exists at the baseline and holds a valid
    record. *)
Variables (w : World) (current base : pyval).
Variables (base_ref base_text : pystr) (labels : list pyval).

Hypothesis current_read : read_json w VERSION_PATH = Ok current.
Hypothesis current_valid : validate_payload dec current VERSION_PATH = Ok tt.
Hypothesis ref_resolved : resolve_base_ref w = Some base_ref.
Hypothesis labels_read : parse_labels_from_event w = Ok labels.
Hypothesis base_found : git_show w base_ref VERSION_PATH = Some base_text.
Hypothesis base_decoded : json_loads w base_text = inl base.
Hypothesis base_valid :
  validate_payload dec base (VERSION_PATH ++ str " at " ++ base_ref) = Ok tt.

(** The fields of the two records and the tuples of their versions. *)
Variables (current_version base_version : pystr).
Variables (current_build_value base_build_value : pyval).
Variables (current_build base_build : Z).
Variables (current_tuple base_tuple : Z * Z * Z).

Hypothesis current_fields :
  has_fields current current_version current_build_value current_build.
Hypothesis base_fields :
  has_fields base base_version base_build_value base_build.
Hypothesis current_semver :
  semver_tuple dec cap (PStr current_version) = Ok current_tuple.
Hypothesis base_semver :
  semver_tuple dec cap (PStr base_version) = Ok base_tuple.

Let changed : bool := file_changed w base_ref VERSION_PATH.
Let release_requested : bool := release_requested_of labels.

Lemma main_reaches_comparison :
  main dec cap w =
  if release_requested && negb changed then
    fail (VERSION_PATH ++ str " must be updated when release label is applied")
  else
    _ <- (if changed then compare_changed dec cap current base release_requested
          else Ok tt) ;;
    Ok (str "Versioning validation passed.").
Proof.
  unfold main.
  rewrite current_read. cbn [bind].
  rewrite current_valid. cbn [bind].
  rewrite ref_resolved, (resolve_base_ref_not_empty _ _ ref_resolved).
  rewrite labels_read. cbn [bind].
  fold changed. fold release_requested.
  destruct (release_requested && negb changed); [reflexivity|].
  rewrite base_found, base_decoded, base_valid. reflexivity.
Qed.

Lemma compare_changed_outcome (requested : bool) :
  exists shown_current shown_base,
    format_value current_build_value = Ok shown_current /\
    format_value base_build_value = Ok shown_base /\
    compare_changed dec cap current base requested =
    if (current_build <=? base_build)%Z then
      fail (str "build_number must increase (current " ++ shown_current ++
            str ", base " ++ shown_base ++ str ")")
    else if tuple_ltb current_tuple base_tuple then
      fail (str "marketing_version must not decrease (current " ++
            current_version ++ str ", base " ++ base_version ++ str ")")
    else if requested && tuple_leb current_tuple base_tuple then
      fail (str "marketing_version must increase for release label (current "
            ++ current_version ++ str ", base " ++ base_version ++ str ")")
    else Ok tt.
Proof.
  destruct current_fields as (Hcv & Hcb & Hci).
  destruct base_fields as (Hbv & Hbb & Hbi).
  destruct (format_value_int _ _ Hci) as [sc Hsc].
  destruct (format_value_int _ _ Hbi) as [sb Hsb].
  exists sc, sb. split; [exact Hsc|]. split; [exact Hsb|].
  unfold compare_changed.
  rewrite Hcb, Hbb. cbn [bind].
  unfold py_le. rewrite Hci, Hbi. cbn [bind].
  destruct (current_build <=? base_build)%Z.
  - rewrite Hsc, Hsb. reflexivity.
  - rewrite Hcv. cbn [bind]. rewrite current_semver. cbn [bind].
    rewrite Hbv. cbn [bind]. rewrite base_semver. cbn [bind].
    destruct (tuple_ltb current_tuple base_tuple); [reflexivity|].
    destruct (requested && tuple_leb current_tuple base_tuple); reflexivity.
Qed.

Lemma main_when_changed :
  changed = true ->
  main dec cap w =
  _ <- compare_changed dec cap current base release_requested ;;
  Ok (str "Versioning validation passed.").
Proof.
  intros Hch. rewrite main_reaches_comparison, Hch.
  now rewrite andb_false_r.
Qed.


(** C2. Release requires a bump: in such a run with the file changed and
    a release requested, equal version tuples end the run on an error
    (the release diagnostic, once the build number has increased); a
    strictly greater current tuple never ends it on the release
    diagnostic, and the run passes once the build number has increased. *)
Theorem release_requires_bump :
  changed = true -> release_requested = true ->
  (current_tuple = base_tuple ->
   exists line,
     main dec cap w = Exit1 line /\
     ((base_build < current_build)%Z ->
      Exit1 line =
      fail (A := pystr)
        (str "marketing_version must increase for release label (current "
         ++ current_version ++ str ", base " ++ base_version ++ str ")"))) /\
  (tuple_ltb base_tuple current_tuple = true ->
   main dec cap w <>
     fail (str "marketing_version must increase for release label (current "
           ++ current_version ++ str ", base " ++ base_version ++ str ")") /\
   ((base_build < current_build)%Z ->
    main dec cap w = Ok (str "Versioning validation passed."))).
Proof.
  intros Hch Hrel. rewrite (main_when_changed Hch).
  destruct (compare_changed_outcome release_requested)
    as (sc & sb & Hsc & Hsb & ->).
  rewrite Hrel. split.
  - intros <-. rewrite tuple_ltb_irrefl, tuple_leb_refl. simpl.
    destruct (Z.leb_spec current_build base_build).
    + eexists. split; [reflexivity|]. lia.
    + eexists. split; reflexivity.
  - intros Hgt. destruct (tuple_ltb_asym _ _ Hgt) as [-> ->]. simpl.
    destruct (Z.leb_spec current_build base_build); split.
    + unfold fail. simpl. discriminate.
    + lia.
    + discriminate.
    + reflexivity.
Qed.

(** C3, as the code has it. No regression: in such a run with the file
    changed, a current version tuple below the baseline's ends the run on
    an error whatever the labels are: the regression diagnostic with both
    versions once the build number has increased, the build number
    diagnostic before that.  With the file unchanged the tuples are not
    compared: the run passes unless a release is requested. *)
Theorem no_regression_when_changed :
  (changed = true -> tuple_ltb current_tuple base_tuple = true ->
   exists line,
     main dec cap w = Exit1 line /\
     ((base_build < current_build)%Z ->
      Exit1 line =
      fail (A := pystr)
        (str "marketing_version must not decrease (current " ++
         current_version ++ str ", base " ++ base_version ++ str ")"))) /\
  (changed = false ->
   main dec cap w =
   if release_requested then
     fail (VERSION_PATH ++
           str " must be updated when release label is applied")
   else Ok (str "Versioning validation passed.")).
Proof.
  split.
  - intros Hch Hlt. rewrite (main_when_changed Hch).
    destruct (compare_changed_outcome release_requested)
      as (sc & sb & Hsc & Hsb & ->).
    rewrite Hlt.
    destruct (Z.leb_spec current_build base_build).
    + eexists. split; [reflexivity|]. lia.
    + eexists. split; reflexivity.
  - intros Hch. rewrite main_reaches_comparison, Hch.
    destruct release_requested; reflexivity.
Qed.

End Comparison.


(** C7. Soft absences: with a valid current record, (i) a run without a
    baseline ref passes, saying that only the current version was
    validated; (ii) a run whose baseline ref resolves, whose labels do not
    ask for a release of an unchanged file and whose baseline does not
    hold the version file passes, treating the version as the initial
    one; the outcome does not depend on any comparison. *)
Theorem soft_absences_pass (w : World) (current : pyval) :
  read_json w VERSION_PATH = Ok current ->
  validate_payload dec current VERSION_PATH = Ok tt ->
  (resolve_base_ref w = None ->
   main dec cap w =
   Ok (str "No base ref detected; validated current version only.")) /\
  (forall base_ref labels,
     resolve_base_ref w = Some base_ref ->
     parse_labels_from_event w = Ok labels ->
     release_requested_of labels &&
       negb (file_changed w base_ref VERSION_PATH) = false ->
     git_show w base_ref VERSION_PATH = None ->
     main dec cap w =
     Ok (VERSION_PATH ++ str " not found on " ++ base_ref ++
         str "; treating as initial version.")).
Proof.
  intros Hread Hvalid. unfold main.
  rewrite Hread. cbn [bind]. rewrite Hvalid. cbn [bind]. split.
  - intros ->. reflexivity.
  - intros base_ref labels Href Hlabels Hrule Hshow.
    rewrite Href, (resolve_base_ref_not_empty _ _ Href).
    rewrite Hlabels. cbn [bind]. rewrite Hrule, Hshow. reflexivity.
Qed.

(** ** The change detector *)

Lemma drop_while_nil {A : Type} (p : A -> bool) (l : list A) :
  drop_while p l = [] <-> forallb p l = true.
Proof.
  induction l as [|x l IH]; simpl; [tauto|].
  destruct (p x); simpl; [exact IH|]. split; discriminate.
Qed.

Lemma drop_while_head {A : Type} (p : A -> bool) (l : list A) (x : A)
      (l' : list A) :
  drop_while p l = x :: l' -> p x = false.
Proof.
  induction l as [|y l IH]; simpl; [discriminate|].
  destruct (p y) eqn:Hy; [exact IH|]. intros H. now injection H as <- _.
Qed.

Lemma strip_empty (s : pystr) :
  is_empty (strip s) = true <-> forallb is_space s = true.
Proof.
  unfold strip. rewrite <- (drop_while_nil is_space s).
  destruct (drop_while is_space s) as [|c rest] eqn:E; simpl; [tauto|].
  split; [|discriminate]. intros H. exfalso.
  apply drop_while_head in E.
  destruct (rev (drop_while is_space (rev rest ++ [c]))) eqn:R;
    [|discriminate H].
  apply (f_equal (@rev _)) in R. rewrite rev_involutive in R. simpl in R.
  apply drop_while_nil in R. rewrite forallb_app in R.
  apply andb_true_iff in R. destruct R as [_ R]. simpl in R.
  rewrite E in R. discriminate R.
Qed.

(** C8. The change detector always answers: it answers no when the diff
    command fails, and yes exactly when the command succeeds and prints
    something other than whitespace. *)
Theorem file_changed_total (w : World) (base_ref path : pystr) :
  match check_output w
          [str "git"; str "diff"; str "--name-only";
           base_ref ++ str "...HEAD"; str "--"; path] with
  | None => file_changed w base_ref path = false
  | Some output =>
      file_changed w base_ref path = true <->
      exists c, In c output /\ is_space c = false
  end.
Proof.
  unfold file_changed.
  destruct (check_output w _) as [output|]; [|reflexivity].
  rewrite negb_true_iff, <- not_true_iff_false, strip_empty. split.
  - intros H. destruct (forallb is_space output) eqn:E; [now elim H|].
    clear H. induction output as [|c output IH]; [discriminate|].
    simpl in E. destruct (is_space c) eqn:Hc.
    + destruct (IH E) as (c' & Hin & Hc'). exists c'. simpl. auto.
    + exists c. simpl. auto.
  - intros (c & Hin & Hc) H. rewrite forallb_forall in H.
    rewrite (H c Hin) in Hc. discriminate.
Qed.

(** ** The baseline resolver *)

Lemma find_first {A : Type} (p : A -> bool) (l : list A) (x : A) :
  find p l = Some x <->
  exists before after,
    l = before ++ x :: after /\ p x = true /\
    forallb (fun y => negb (p y)) before = true.
Proof.
  induction l as [|y l IH]; simpl.
  - split; [discriminate|]. intros ([|? ?] & after & E & _); discriminate.
  - destruct (p y) eqn:Hy.
    + split.
      * intros H. injection H as <-. exists [], l. auto.
      * intros ([|z before] & after & E & Hx & Hb).
        -- now injection E as -> _.
        -- injection E as <- _. simpl in Hb. rewrite Hy in Hb. discriminate.
    + rewrite IH. split.
      * intros (before & after & -> & Hx & Hb).
        exists (y :: before), after. simpl. rewrite Hy. auto.
      * intros ([|z before] & after & E & Hx & Hb).
        -- injection E as -> _. congruence.
        -- injection E as <- ->. simpl in Hb.
           apply andb_true_iff in Hb. destruct Hb as [_ Hb]. eauto.
Qed.

(** C9, as the code has it. A hint that is set to a non-empty name is
    returned behind [origin/] whatever the version-control store answers:
    the hint is never verified.  A hint that is unset or empty leaves the
    choice to the four candidates, probed in the order [origin/main],
    [origin/master], [main], [master]: the first that verifies wins. *)
Theorem base_ref_hint_unverified (w : World) :
  (forall name,
     environ w (str "GITHUB_BASE_REF") = Some name -> name <> [] ->
     resolve_base_ref w = Some (str "origin/" ++ name)) /\
  (environ w (str "GITHUB_BASE_REF") = None \/
   environ w (str "GITHUB_BASE_REF") = Some [] ->
   forall candidate,
     resolve_base_ref w = Some candidate <->
     exists before after,
       [str "origin/main"; str "origin/master"; str "main"; str "master"] =
         before ++ candidate :: after /\
       check_output w
         [str "git"; str "rev-parse"; str "--verify"; candidate] <> None /\
       Forall (fun earlier =>
                 check_output w
                   [str "git"; str "rev-parse"; str "--verify"; earlier]
                 = None) before).
Proof.
  unfold resolve_base_ref. split.
  - intros name Henv Hne. rewrite Henv.
    destruct name; [congruence|reflexivity].
  - intros Henv candidate.
    assert (Hprobe :
      resolve_base_ref w =
      find (fun c =>
              match check_output w
                      [str "git"; str "rev-parse"; str "--verify"; c]
              with Some _ => true | None => false end) base_candidates).
    { unfold resolve_base_ref.
      destruct Henv as [-> | ->]; reflexivity. }
    fold (resolve_base_ref w). rewrite Hprobe, find_first.
    unfold base_candidates.
    split; intros (before & after & E & Hc & Hb); exists before, after;
      (split; [exact E|]); split.
    + intros Hn. rewrite Hn in Hc. discriminate Hc.
    + apply Forall_forall. intros x Hx.
      rewrite forallb_forall in Hb. specialize (Hb x Hx).
      destruct (check_output w [_; _; _; x]); [discriminate Hb|reflexivity].
    + destruct (check_output w [_; _; _; candidate]);
        [reflexivity|congruence].
    + apply forallb_forall. intros x Hx.
      rewrite Forall_forall in Hb. now rewrite (Hb x Hx).
Qed.

(** ** The version tuple of an accepted string *)

(** C10, as the code has it. On every string the pattern accepts, the
    string is three components separated by dots, followed or not by one
    newline, and splitting on the dot gives exactly three parts.  When no
    component has more digits than the interpreter's cap on conversions
    lets [int] read, each part converts to the number its component
    denotes and [semver_tuple] returns the triple of the three numbers;
    when one has, [int] raises [ValueError] and so does [semver_tuple]. *)
Theorem semver_tuple_safe (s : pystr) :
  re_match dec SEMVER_RE s = true ->
  exists major minor patch tl,
    s = major ++ 46 :: minor ++ 46 :: patch ++ tl /\
    componentb dec major = true /\ componentb dec minor = true /\
    componentb dec patch = true /\ at_end tl = true /\
    split_on 46 s = [major; minor; patch ++ tl] /\
    (version_within_cap dec cap s = true ->
     py_int dec cap major = Ok (number_of dec major) /\
     py_int dec cap minor = Ok (number_of dec minor) /\
     py_int dec cap (patch ++ tl) = Ok (number_of dec patch) /\
     semver_tuple dec cap (PStr s) =
       Ok (number_of dec major, number_of dec minor, number_of dec patch)) /\
    (version_within_cap dec cap s = false ->
     semver_tuple dec cap (PStr s) = Raised ValueError).
Proof.
  intros H. apply semver_re_spec in H.
  destruct H as (major & minor & patch & tl & -> & Ha & Hb & Hc & Htl).
  destruct (semver_tuple_parts _ _ _ _ Ha Hb Hc Htl) as (Hs & Ia & Ib & Ic).
  pose proof (semver_tuple_components _ _ _ _ Ha Hb Hc Htl) as Ht.
  exists major, minor, patch, tl.
  repeat (split; [assumption || reflexivity|]).
  split; intros Hcap; rewrite Hcap in Ht; [|exact Ht].
  split; [|split; [|split; [|exact Ht]]];
    revert Hcap; unfold version_within_cap; rewrite Hs; cbn [forallb];
    destruct (component_digits _ Ha) as [_ Da];
    destruct (component_digits _ Hb) as [_ Db];
    destruct (component_digits _ Hc) as [_ Dc];
    rewrite <- (app_nil_r major), <- (app_nil_r minor) at 1;
    rewrite !digit_count_run by (assumption || reflexivity);
    rewrite ?app_nil_r; rewrite ?Ia, ?Ib, ?Ic;
    destruct (over_cap cap (N.of_nat (List.length major))),
             (over_cap cap (N.of_nat (List.length minor))),
             (over_cap cap (N.of_nat (List.length patch)));
    cbn [negb andb]; intros E; try discriminate E; reflexivity.
Qed.

(** ** The validator against the strict shape *)

Lemma strict_semver_ends_with_digit (s : pystr) :
  strict_semver dec s ->
  exists front c, s = front ++ [c] /\ is_decimal dec c = true.
Proof.
  intros (major & minor & patch & -> & _ & _ & Hpatch).
  destruct (component_digits _ Hpatch) as [Hne Hds].
  destruct (exists_last Hne) as (front & c & ->).
  rewrite forallb_app in Hds. apply andb_true_iff in Hds.
  destruct Hds as [_ Hc]. simpl in Hc. rewrite andb_true_r in Hc.
  exists (major ++ 46 :: minor ++ 46 :: front), c. split; [|exact Hc].
  rewrite <- app_assoc. simpl. do 2 f_equal.
  rewrite <- app_assoc. reflexivity.
Qed.

(** X1. The pattern accepts the strict shape, and the strict shape
    followed by one newline, and nothing else. *)
Lemma accepted_versions (s : pystr) :
  re_match dec SEMVER_RE s = true <->
  strict_semver dec s \/ exists s', s = s' ++ [10] /\ strict_semver dec s'.
Proof.
  rewrite semver_re_spec. unfold strict_semver. split.
  - intros (major & minor & patch & tl & -> & Ha & Hb & Hc & Htl).
    destruct (at_end_cases tl Htl) as [-> | ->].
    + left. exists major, minor, patch. rewrite app_nil_r. auto.
    + right. exists (major ++ 46 :: minor ++ 46 :: patch). split.
      * rewrite <- app_assoc. simpl. do 2 f_equal.
        rewrite <- app_assoc. reflexivity.
      * exists major, minor, patch. auto.
  - intros [(major & minor & patch & -> & Ha & Hb & Hc) |
            (s' & -> & major & minor & patch & -> & Ha & Hb & Hc)].
    + exists major, minor, patch, []. rewrite app_nil_r. auto.
    + exists major, minor, patch, [10]. split; [|auto].
      rewrite <- app_assoc. simpl. do 2 f_equal.
      rewrite <- app_assoc. reflexivity.
Qed.

Lemma record_fields (version : pystr) (build_value : pyval) (build : Z) :
  as_int build_value = Some build ->
  has_fields (record (PStr version) build_value) version build_value build.
Proof. intros H. unfold has_fields. auto. Qed.

(** A record with an accepted version is let through exactly when its
    build number is an instance of [int], booleans included, that is not
    negative. *)
Lemma accepted_build_numbers (version source : pystr) (build_value : pyval) :
  re_match dec SEMVER_RE version = true ->
  validate_payload dec (record (PStr version) build_value) source = Ok tt <->
  exists build, as_int build_value = Some build /\ (0 <= build)%Z.
Proof.
  intros Hre. split.
  - intros H. apply validate_ok_fields in H.
    destruct H as (v & bv & b & (_ & Hb & Hi) & _ & Hpos).
    injection Hb as <-. eauto.
  - intros (b & Hi & Hpos).
    now apply (fields_validate_ok _ _ version build_value b);
      [apply record_fields| |].
Qed.

(** C4, where the code parts from it. The validator lets the version
    [1.2.3] followed by a newline through, although the string is not of
    the strict shape. *)
Theorem trailing_newline_accepted (source : pystr) :
  validate_payload dec
    (record (PStr (str "1.2.3" ++ [10])) (PInt 1)) source = Ok tt /\
  ~ strict_semver dec (str "1.2.3" ++ [10]).
Proof.
  split; [reflexivity|]. intros H.
  apply strict_semver_ends_with_digit in H.
  destruct H as (front & c & E & Hc).
  change (str "1.2.3" ++ [10]) with ([49; 46; 50; 46; 51] ++ [10]) in E.
  apply app_inj_tail in E. destruct E as [_ <-]. discriminate Hc.
Qed.

(** C5, where the code parts from it. The validator lets a boolean
    through as build number. *)
Theorem boolean_build_number_accepted (source : pystr) (b : bool) :
  validate_payload dec (record (PStr (str "1.2.3")) (PBool b)) source = Ok tt.
Proof. destruct b; reflexivity. Qed.

End Properties.

(** * The theorems at concrete runs *)

Lemma arabic_indic_below_ten (c d : N) :
  arabic_indic_digits c = Some d -> d < 10.
Proof.
  unfold arabic_indic_digits.
  destruct (N.leb_spec 1632 c), (N.leb_spec c 1641); simpl;
    try discriminate.
  intros E. injection E as <-. lia.
Qed.

Lemma arabic_indic_not_space (c : N) :
  is_space c = true -> arabic_indic_digits c = None.
Proof.
  unfold arabic_indic_digits.
  destruct (N.leb_spec 1632 c), (N.leb_spec c 1641); simpl;
    try reflexivity.
  unfold is_space. intros Hs. exfalso.
  repeat (apply orb_true_iff in Hs; destruct Hs as [Hs | Hs]);
    repeat (apply andb_true_iff in Hs; destruct Hs as [Hs ?]);
    repeat match goal with
    | H : (_ <=? _) = true |- _ => apply N.leb_le in H
    | H : (_ =? _) = true |- _ => apply N.eqb_eq in H
    end; lia.
Qed.


Lemma release_requires_bump_witness :
  main ascii_digits_only 4300 release_same_version_world =
    fail (str "marketing_version must increase for release label (current 1.2.0, base 1.2.0)") /\
  main ascii_digits_only 4300 release_bumped_world =
    Ok (str "Versioning validation passed.").
Proof.
  split.
  - edestruct (release_requires_bump ascii_digits_only 4300
                 release_same_version_world) as [Hsame _].
    1-7: reflexivity.
    1-2: unfold has_fields; repeat split; reflexivity.
    1-4: reflexivity.
    destruct (Hsame eq_refl) as (line & Hmain & Hline).
    rewrite Hmain, Hline by lia. reflexivity.
  - edestruct (release_requires_bump ascii_digits_only 4300
                 release_bumped_world) as [_ Hgreater].
    1-7: reflexivity.
    1-2: unfold has_fields; repeat split; reflexivity.
    1-4: reflexivity.
    destruct (Hgreater eq_refl) as [_ Hpass]. apply Hpass. lia.
Defined.

Lemma no_regression_when_changed_witness :
  main ascii_digits_only 4300 regressed_changed_world =
  fail (str "marketing_version must not decrease (current 1.0.0, base 2.0.0)").
Proof.
  edestruct (no_regression_when_changed ascii_digits_only 4300
               regressed_changed_world) as [Hchanged _].
  1-7: reflexivity.
  1-2: unfold has_fields; repeat split; reflexivity.
  1-2: reflexivity.
  destruct (Hchanged eq_refl eq_refl) as (line & Hmain & Hline).
  rewrite Hmain, Hline by lia. reflexivity.
Defined.

(** C3 as stated fails, whatever the digit table and the digit cap: a
    current version below the baseline's passes when the diff lists no
    change, although a baseline ref resolves and the baseline record
    exists and is valid. *)
Lemma regression_unchanged_passes :
  ~ exists (dec : N -> option N) (cap : N),
      forall (w : World) (current base : pyval)
             (base_ref base_text current_version base_version : list N)
             (current_tuple base_tuple : Z * Z * Z),
        read_json w VERSION_PATH = Ok current ->
        validate_payload dec current VERSION_PATH = Ok tt ->
        resolve_base_ref w = Some base_ref ->
        git_show w base_ref VERSION_PATH = Some base_text ->
        json_loads w base_text = inl base ->
        validate_payload dec base
          (VERSION_PATH ++ str " at " ++ base_ref) = Ok tt ->
        py_getitem current (str "marketing_version") =
          Ok (PStr current_version) ->
        py_getitem base (str "marketing_version") =
          Ok (PStr base_version) ->
        semver_tuple dec cap (PStr current_version) = Ok current_tuple ->
        semver_tuple dec cap (PStr base_version) = Ok base_tuple ->
        tuple_ltb current_tuple base_tuple = true ->
        exists line, main dec cap w = Exit1 line.
Proof.
  intros (dec & cap & law).
  destruct (law regressed_unchanged_world
              (version_record "1.0.0" 5) (version_record "2.0.0" 5)
              (str "origin/main") (fst (version_document "2.0.0" 5))
              (str "1.0.0") (str "2.0.0") (1, 0, 0)%Z (2, 0, 0)%Z
              eq_refl eq_refl eq_refl eq_refl eq_refl eq_refl eq_refl
              eq_refl eq_refl eq_refl eq_refl) as [line Hline].
  discriminate Hline.
Qed.


Lemma soft_absences_pass_witness :
  main ascii_digits_only 4300 no_base_world =
    Ok (str "No base ref detected; validated current version only.") /\
  main ascii_digits_only 4300 first_version_world =
    Ok (str "Docs/version.json not found on origin/main; treating as initial version.").
Proof.
  split.
  - apply (soft_absences_pass ascii_digits_only 4300 no_base_world
             (version_record "1.2.0" 5)); reflexivity.
  - apply (proj2 (soft_absences_pass ascii_digits_only 4300 first_version_world
                    (version_record "1.2.0" 5) eq_refl eq_refl)
             (str "origin/main") []); reflexivity.
Defined.

(** C9 as stated fails: the hint can be set and empty, and the resolver
    then returns no baseline when no candidate verifies. *)
Lemma empty_hint_not_qualified :
  ~ (forall (w : World) (name : list N),
       environ w (str "GITHUB_BASE_REF") = Some name ->
       resolve_base_ref w = Some (str "origin/" ++ name)).
Proof.
  intros law.
  specialize (law empty_hint_no_branch_world [] eq_refl).
  discriminate law.
Qed.

Lemma base_ref_hint_unverified_witness :
  resolve_base_ref unknown_hint_world = Some (str "origin/gone") /\
  resolve_base_ref empty_hint_world = Some (str "master") /\
  resolve_base_ref unset_hint_world = Some (str "origin/master").
Proof.
  split; [|split].
  - apply (proj1 (base_ref_hint_unverified unknown_hint_world)
             (str "gone") eq_refl).
    cbv. discriminate.
  - apply (proj2 (base_ref_hint_unverified empty_hint_world)
             (or_intror eq_refl)).
    exists [str "origin/main"; str "origin/master"; str "main"], [].
    split; [reflexivity|]. split; [discriminate|].
    repeat constructor.
  - apply (proj2 (base_ref_hint_unverified unset_hint_world)
             (or_introl eq_refl)).
    exists [str "origin/main"], [str "main"; str "master"].
    split; [reflexivity|]. split; [discriminate|].
    repeat constructor.
Defined.

Lemma semver_tuple_safe_witness :
  exists major minor patch tl,
    mixed_digits_version = major ++ 46 :: minor ++ 46 :: patch ++ tl /\
    componentb arabic_indic_digits major = true /\
    componentb arabic_indic_digits minor = true /\
    componentb arabic_indic_digits patch = true /\ at_end tl = true /\
    split_on 46 mixed_digits_version = [major; minor; patch ++ tl] /\
    (version_within_cap arabic_indic_digits 4300 mixed_digits_version
       = true ->
     py_int arabic_indic_digits 4300 major =
       Ok (number_of arabic_indic_digits major) /\
     py_int arabic_indic_digits 4300 minor =
       Ok (number_of arabic_indic_digits minor) /\
     py_int arabic_indic_digits 4300 (patch ++ tl) =
       Ok (number_of arabic_indic_digits patch) /\
     semver_tuple arabic_indic_digits 4300 (PStr mixed_digits_version) =
       Ok (number_of arabic_indic_digits major,
           number_of arabic_indic_digits minor,
           number_of arabic_indic_digits patch)) /\
    (version_within_cap arabic_indic_digits 4300 mixed_digits_version
       = false ->
     semver_tuple arabic_indic_digits 4300 (PStr mixed_digits_version) =
       Raised ValueError).
Proof.
  apply (semver_tuple_safe arabic_indic_digits 4300 arabic_indic_below_ten
           arabic_indic_not_space mixed_digits_version).
  reflexivity.
Defined.

(** C10 as stated fails, whatever the digit table, under the default cap
    of 4300 digits: the pattern accepts [1.0.] followed by 4301 nines,
    and [semver_tuple] does not return on it. *)
Lemma accepted_version_past_cap :
  ~ exists dec : N -> option N,
      forall s : list N,
        re_match dec SEMVER_RE s = true ->
        exists t, semver_tuple dec 4300 (PStr s) = Ok t.
Proof.
  intros [dec law].
  assert (Haccepted : re_match dec SEMVER_RE long_patch_version = true).
  { apply semver_re_spec.
    exists [49], [48], (repeat 57 4301), [].
    repeat split; vm_compute; reflexivity. }
  destruct (law long_patch_version Haccepted) as [t Ht].
  vm_compute in Ht. discriminate Ht.
Qed.

(** * The scenarios of the specification *)

Example scenario_current_only :
  main ascii_digits_only 4300 no_base_world =
  Ok (str "No base ref detected; validated current version only.").
Proof. reflexivity. Qed.

Example scenario_unchanged :
  main ascii_digits_only 4300
    (pull_request_world (version_document "1.2.0" 5)
       (version_document "1.2.0" 5) (event_document []) []) =
  Ok (str "Versioning validation passed.").
Proof. reflexivity. Qed.

Example scenario_build_bumped :
  main ascii_digits_only 4300
    (pull_request_world (version_document "1.2.0" 6)
       (version_document "1.2.0" 5) (event_document [])
       version_file_listed) =
  Ok (str "Versioning validation passed.").
Proof. reflexivity. Qed.

Example scenario_release_same_version :
  main ascii_digits_only 4300 release_same_version_world =
  fail (str "marketing_version must increase for release label (current 1.2.0, base 1.2.0)").
Proof. reflexivity. Qed.

Example scenario_release_unchanged :
  main ascii_digits_only 4300 release_unchanged_world =
  fail (str "Docs/version.json must be updated when release label is applied").
Proof. reflexivity. Qed.

Example scenario_initial_version :
  main ascii_digits_only 4300 first_version_world =
  Ok (str "Docs/version.json not found on origin/main; treating as initial version.").
Proof. reflexivity. Qed.

Example diff_listing_is_a_change :
  file_changed diff_world (str "origin/main") VERSION_PATH = true /\
  file_changed no_base_world (str "origin/main") VERSION_PATH = false.
Proof. split; reflexivity. Qed.

(** * Further properties of the script *)

Section Further.

Variable dec : N -> option N.
Variable cap : N.

(** ** [validate_payload] *)

(** X2. The validator lets a payload through exactly when it is a dict
    whose [marketing_version] is a string the pattern accepts and whose
    [build_number] is an instance of [int] that is not negative; the
    source label plays no part in it. *)
Theorem validate_payload_accepts_iff (data : pyval) (source : pystr) :
  validate_payload dec data source = Ok tt <->
  exists version build_value build,
    has_fields data version build_value build /\
    re_match dec SEMVER_RE version = true /\ (0 <= build)%Z.
Proof.
  split.
  - apply validate_ok_fields.
  - intros (version & build_value & build & Hf & Hre & Hpos).
    exact (fields_validate_ok dec data source version build_value build
             Hf Hre Hpos).
Qed.

Ltac split_outcome H :=
  repeat match type of H with
  | context [match ?x with _ => _ end] =>
      destruct x eqn:?; simpl in H; try discriminate H
  end.

(** X3. Every diagnostic of the validator starts with [ERROR: ] and the
    source label it was given, so that the record at fault is named. *)
Theorem validate_payload_error_names_source (data : pyval)
        (source line : pystr) :
  validate_payload dec data source = Exit1 line ->
  exists rest, line = str "ERROR: " ++ source ++ rest.
Proof.
  unfold validate_payload. intros H.
  destruct data; simpl in H; try discriminate H;
    split_outcome H;
    unfold fail in H; injection H as <-; eexists; reflexivity.
Qed.

(** X4. What the validator does with each kind of JSON value: an object
    is accepted or refused with a diagnostic and never makes it raise; an
    array or a string is never accepted (a diagnostic, or a [TypeError]
    when both field names occur in it); [null], a boolean or a number
    makes the membership test raise [TypeError]. *)
Theorem validate_payload_by_type (data : pyval) (source : pystr) :
  match data with
  | PDict _ =>
      validate_payload dec data source = Ok tt \/
      exists line, validate_payload dec data source = Exit1 line
  | PList _ | PStr _ =>
      validate_payload dec data source = Raised TypeError \/
      exists line, validate_payload dec data source = Exit1 line
  | _ => validate_payload dec data source = Raised TypeError
  end.
Proof.
  unfold validate_payload.
  destruct data as [| | | |s|items|kvs]; simpl; try reflexivity.
  - destruct (substring_of _ s); simpl; [|unfold fail; eauto].
    destruct (substring_of _ s); simpl; [auto|unfold fail; eauto].
  - destruct (existsb _ items); simpl; [|unfold fail; eauto].
    destruct (existsb _ items); simpl; [auto|unfold fail; eauto].
  - destruct (dict_get kvs _) as [mv|]; simpl; [|unfold fail; eauto].
    destruct (dict_get kvs _) as [bn|]; simpl; [|unfold fail; eauto].
    destruct mv; try (unfold fail; eauto; fail).
    destruct (re_match dec SEMVER_RE s); simpl; [|unfold fail; eauto].
    destruct (as_int bn) as [b|]; [|unfold fail; eauto].
    destruct (b <? 0)%Z; [unfold fail; eauto|auto].
Qed.

(** ** The outcomes of [main] *)

Lemma read_json_exit (w : World) (path line : pystr) :
  read_json w path = Exit1 line -> error_line line.
Proof.
  unfold read_json, error_line. intros H. split_outcome H;
    unfold fail in H; injection H as <-; eexists; reflexivity.
Qed.

Lemma validate_payload_exit (data : pyval) (source line : pystr) :
  validate_payload dec data source = Exit1 line -> error_line line.
Proof.
  unfold validate_payload, error_line. intros H.
  destruct data; simpl in H; try discriminate H;
    split_outcome H;
    unfold fail in H; injection H as <-; eexists; reflexivity.
Qed.

Lemma py_getitem_no_exit (data : pyval) (key line : pystr) :
  py_getitem data key <> Exit1 line.
Proof.
  destruct data; simpl; try discriminate.
  destruct (dict_get kvs key); discriminate.
Qed.

Lemma format_value_no_exit (v : pyval) (line : pystr) :
  format_value v <> Exit1 line.
Proof. destruct v as [|[|]| | | | |]; discriminate. Qed.

Lemma py_le_no_exit (a b : pyval) (line : pystr) : py_le a b <> Exit1 line.
Proof.
  unfold py_le. destruct (as_int a); [destruct (as_int b)|]; discriminate.
Qed.

Lemma py_int_no_exit (s line : pystr) : py_int dec cap s <> Exit1 line.
Proof.
  unfold py_int. intros H. split_outcome H.
Qed.

Lemma semver_tuple_no_exit (version : pyval) (line : pystr) :
  semver_tuple dec cap version <> Exit1 line.
Proof.
  unfold semver_tuple, bind. intros H.
  split_outcome H;
    match goal with
    | E : py_int dec cap _ = Exit1 _ |- _ => exact (py_int_no_exit _ _ E)
    end.
Qed.

Lemma compare_changed_exit (current base : pyval) (requested : bool)
      (line : pystr) :
  compare_changed dec cap current base requested = Exit1 line -> error_line line.
Proof.
  unfold compare_changed, error_line, bind. intros H.
  split_outcome H;
    try match goal with
    | E : py_getitem _ _ = Exit1 _ |- _ =>
        exfalso; exact (py_getitem_no_exit _ _ _ E)
    | E : py_le _ _ = Exit1 _ |- _ =>
        exfalso; exact (py_le_no_exit _ _ _ E)
    | E : format_value _ = Exit1 _ |- _ =>
        exfalso; exact (format_value_no_exit _ _ E)
    | E : semver_tuple dec cap _ = Exit1 _ |- _ =>
        exfalso; exact (semver_tuple_no_exit _ _ E)
    end;
    unfold fail in H; injection H as <-; eexists; reflexivity.
Qed.

Lemma label_name_read (label : pyval) :
  (if is_dict label then py_get label (str "name") PNone else Ok PNone) =
  Ok (label_name label).
Proof. destruct label; reflexivity. Qed.

(** The loop over the labels in closed form: it raises when some entry
    has a name that is truthy and cannot be hashed, and otherwise adds
    the truthy names, skipping every other entry. *)
Lemma add_labels_result (items labels : list pyval) :
  add_labels items labels =
  if existsb breaks_labels items then Raised TypeError
  else Ok (rev (filter truthy (map label_name items)) ++ labels).
Proof.
  revert labels. induction items as [|label items IH]; intros labels.
  - reflexivity.
  - cbn [add_labels existsb map filter]. rewrite label_name_read.
    cbn [bind]. unfold breaks_labels at 1.
    destruct (truthy (label_name label)) eqn:Ht; cbn [andb orb].
    + destruct (label_name label) eqn:Hn; cbn [unhashable orb];
        try reflexivity;
        rewrite IH; destruct (existsb breaks_labels items);
        try reflexivity;
        cbn [rev]; now rewrite <- app_assoc.
    + apply IH.
Qed.

Lemma bind_exit {A B : Type} (c : res A) (k : A -> res B) (line : pystr) :
  bind c k = Exit1 line ->
  c = Exit1 line \/ exists a, c = Ok a /\ k a = Exit1 line.
Proof.
  destruct c as [a|line'| |]; simpl; intros H; try discriminate H.
  - right. exists a. auto.
  - left. now injection H as ->.
Qed.

Lemma py_get_no_exit (data : pyval) (key : pystr) (default : pyval)
      (line : pystr) :
  py_get data key default <> Exit1 line.
Proof. destruct data; discriminate. Qed.

Lemma py_iter_no_exit (v : pyval) (line : pystr) : py_iter v <> Exit1 line.
Proof. destruct v; discriminate. Qed.

Lemma add_labels_no_exit (items labels : list pyval) (line : pystr) :
  add_labels items labels <> Exit1 line.
Proof.
  rewrite add_labels_result. destruct (existsb _ _); discriminate.
Qed.

Lemma parse_labels_no_exit (w : World) (line : pystr) :
  parse_labels_from_event w <> Exit1 line.
Proof.
  unfold parse_labels_from_event. intros H.
  destruct (environ w _) as [path|]; [|discriminate H].
  destruct (is_empty path); [discriminate H|].
  destruct (read_text w path) as [text|]; [|discriminate H].
  destruct (json_loads w text) as [event|]; [|discriminate H].
  apply bind_exit in H. destruct H as [H | (pr & _ & H)].
  { exact (py_get_no_exit _ _ _ _ H). }
  destruct (truthy pr && is_dict pr); [|discriminate H].
  apply bind_exit in H. destruct H as [H | (found & _ & H)].
  { exact (py_get_no_exit _ _ _ _ H). }
  apply bind_exit in H. destruct H as [H | (items & _ & H)].
  { exact (py_iter_no_exit _ _ H). }
  exact (add_labels_no_exit _ _ _ H).
Qed.

(** X6. The exit contract of [main]: a run that exits with status 1 has
    printed a line that starts with [ERROR: ], and a run that returns has
    printed one of the three success lines. *)
Theorem main_exit_contract (w : World) :
  match main dec cap w with
  | Ok line => success_line line
  | Exit1 line => error_line line
  | _ => True
  end.
Proof.
  unfold main.
  destruct (read_json w VERSION_PATH) as [current|line|e|] eqn:Hread;
    cbn [bind]; [|now apply read_json_exit in Hread|exact I|exact I].
  destruct (validate_payload dec current VERSION_PATH) as [[]|line|e|]
    eqn:Hvalid; cbn [bind];
    [|now apply validate_payload_exit in Hvalid|exact I|exact I].
  destruct (resolve_base_ref w) as [base_ref|]; [|left; reflexivity].
  destruct (is_empty base_ref); [left; reflexivity|].
  destruct (parse_labels_from_event w) as [labels|line|e|] eqn:Hlabels;
    cbn [bind]; [|now apply parse_labels_no_exit in Hlabels|exact I|exact I].
  destruct (release_requested_of labels &&
            negb (file_changed w base_ref VERSION_PATH));
    [eexists; reflexivity|].
  destruct (git_show w base_ref VERSION_PATH) as [base_text|];
    [|right; left; eexists; reflexivity].
  destruct (json_loads w base_text) as [base|exc];
    [|eexists; reflexivity].
  destruct (validate_payload dec base _) as [[]|line|e|] eqn:Hbase;
    cbn [bind]; [|now apply validate_payload_exit in Hbase|exact I|exact I].
  destruct (file_changed w base_ref VERSION_PATH); cbn [bind].
  - destruct (compare_changed dec cap current base _) as [[]|line|e|] eqn:Hcmp;
      cbn [bind];
      [right; right; reflexivity
      |now apply compare_changed_exit in Hcmp|exact I|exact I].
  - right; right; reflexivity.
Qed.

(** X5. The current record comes first: when the version file is missing
    or undecodable, or holds a record the validator refuses, the run ends
    on that diagnostic, whatever the hint, the store and the event say. *)
Theorem current_record_first (w : World) (line : pystr) :
  read_json w VERSION_PATH = Exit1 line \/
  (exists current,
     read_json w VERSION_PATH = Ok current /\
     validate_payload dec current VERSION_PATH = Exit1 line) ->
  main dec cap w = Exit1 line.
Proof.
  unfold main. intros [Hread | (current & Hread & Hvalid)].
  - now rewrite Hread.
  - rewrite Hread. cbn [bind]. now rewrite Hvalid.
Qed.


(** X8. A baseline that holds the version file is checked before the
    diff is looked at: text that does not decode, or a record the
    validator refuses, ends the run on that diagnostic even when the
    version file did not change. *)
Theorem malformed_baseline_reported (w : World) (current : pyval)
        (base_ref base_text : pystr) (labels : list pyval) :
  read_json w VERSION_PATH = Ok current ->
  validate_payload dec current VERSION_PATH = Ok tt ->
  resolve_base_ref w = Some base_ref ->
  parse_labels_from_event w = Ok labels ->
  release_requested_of labels &&
    negb (file_changed w base_ref VERSION_PATH) = false ->
  git_show w base_ref VERSION_PATH = Some base_text ->
  (forall exc,
     json_loads w base_text = inr exc ->
     main dec cap w =
     fail (str "Invalid JSON in " ++ VERSION_PATH ++ str " at " ++
           base_ref ++ str ": " ++ exc)) /\
  (forall base line,
     json_loads w base_text = inl base ->
     validate_payload dec base (VERSION_PATH ++ str " at " ++ base_ref) =
       Exit1 line ->
     main dec cap w = Exit1 line).
Proof.
  intros Hread Hvalid Href Hlabels Hrule Hshow. unfold main.
  rewrite Hread. cbn [bind]. rewrite Hvalid. cbn [bind].
  rewrite Href, (resolve_base_ref_not_empty _ _ Href).
  rewrite Hlabels. cbn [bind]. rewrite Hrule, Hshow. split.
  - intros exc ->. reflexivity.
  - intros base line -> Hbase. now rewrite Hbase.
Qed.

(** ** The verdict of a run that compares *)

Lemma tuple_leb_ltb (s t : Z * Z * Z) :
  tuple_leb s t = negb (tuple_ltb t s).
Proof.
  destruct s as [[a b] c], t as [[a' b'] c']. unfold tuple_ltb, tuple_leb.
  destruct (Z.ltb_spec a a'), (Z.eqb_spec a a'), (Z.ltb_spec b b'),
           (Z.eqb_spec b b'), (Z.leb_spec c c'),
           (Z.ltb_spec a' a), (Z.eqb_spec a' a), (Z.ltb_spec b' b),
           (Z.eqb_spec b' b), (Z.ltb_spec c' c);
    simpl; try reflexivity; lia.
Qed.

(** X7. The verdict of a run that reaches the baseline record and in
    which [semver_tuple] returns on both versions (it does unless a
    component has more digits than the cap on conversions allows): the
    run prints the passing line exactly when the file is unchanged and no
    release is requested, or the file changed, the build number rose,
    the version did not go down and, under a release, went up; in every
    other case it exits on a diagnostic. *)
Theorem comparison_verdict (w : World) (current base : pyval)
        (base_ref base_text : pystr) (labels : list pyval)
        (current_version base_version : pystr)
        (current_build_value base_build_value : pyval)
        (current_build base_build : Z)
        (current_tuple base_tuple : Z * Z * Z) :
  read_json w VERSION_PATH = Ok current ->
  validate_payload dec current VERSION_PATH = Ok tt ->
  resolve_base_ref w = Some base_ref ->
  parse_labels_from_event w = Ok labels ->
  git_show w base_ref VERSION_PATH = Some base_text ->
  json_loads w base_text = inl base ->
  validate_payload dec base (VERSION_PATH ++ str " at " ++ base_ref) = Ok tt ->
  has_fields current current_version current_build_value current_build ->
  has_fields base base_version base_build_value base_build ->
  semver_tuple dec cap (PStr current_version) = Ok current_tuple ->
  semver_tuple dec cap (PStr base_version) = Ok base_tuple ->
  (main dec cap w = Ok (str "Versioning validation passed.") <->
   (file_changed w base_ref VERSION_PATH = false /\
    release_requested_of labels = false) \/
   (file_changed w base_ref VERSION_PATH = true /\
    (base_build < current_build)%Z /\
    tuple_ltb current_tuple base_tuple = false /\
    (release_requested_of labels = true ->
     tuple_ltb base_tuple current_tuple = true))) /\
  (main dec cap w = Ok (str "Versioning validation passed.") \/
   exists line, main dec cap w = Exit1 line).
Proof.
  intros Hread Hvalid Href Hlabels Hshow Hdecode Hbase Hcf Hbf Hct Hbt.
  rewrite (main_reaches_comparison dec cap w current base base_ref base_text
             labels Hread Hvalid Href Hlabels Hshow Hdecode Hbase).
  destruct (compare_changed_outcome dec cap current base current_version
              base_version current_build_value base_build_value
              current_build base_build current_tuple base_tuple
              Hcf Hbf Hct Hbt (release_requested_of labels))
    as (sc & sb & _ & _ & ->).
  rewrite tuple_leb_ltb. unfold fail.
  destruct (file_changed w base_ref VERSION_PATH),
           (release_requested_of labels),
           (Z.leb_spec current_build base_build),
           (tuple_ltb current_tuple base_tuple),
           (tuple_ltb base_tuple current_tuple);
    cbn [andb negb bind];
    (split;
     [intuition (congruence || lia)
     |(left; reflexivity) || (right; eexists; reflexivity)]).
Qed.

(** ** The labels of a pull request *)

Lemma pystr_eqb_eq (a b : pystr) : pystr_eqb a b = true <-> a = b.
Proof.
  revert b. induction a as [|x a IH]; intros [|y b]; simpl.
  - split; reflexivity.
  - split; discriminate.
  - split; discriminate.
  - rewrite andb_true_iff, N.eqb_eq, IH. split.
    + intros [-> ->]. reflexivity.
    + intros E. injection E as -> ->. split; reflexivity.
Qed.

(** What the resolver of the release intent returns on the event of a
    pull request: the closed form of the loop over its labels. *)
Lemma parse_labels_pull_request (w : World) (path text : pystr)
      (event pr : list (pystr * pyval)) (items : list pyval) :
  environ w (str "GITHUB_EVENT_PATH") = Some path -> path <> [] ->
  read_text w path = Some text ->
  json_loads w text = inl (PDict event) ->
  dict_get event (str "pull_request") = Some (PDict pr) -> pr <> [] ->
  dict_get pr (str "labels") = Some (PList items) ->
  parse_labels_from_event w =
  if existsb breaks_labels items then Raised TypeError
  else Ok (rev (filter truthy (map label_name items))).
Proof.
  intros Henv Hpath Hread Hdecode Hpr Hne Hlabels.
  unfold parse_labels_from_event. rewrite Henv.
  destruct path as [|c path]; [congruence|]. cbn [is_empty].
  rewrite Hread, Hdecode. unfold py_get at 1. rewrite Hpr. cbn [bind].
  destruct pr as [|binding pr]; [congruence|].
  cbn [truthy is_empty negb is_dict andb].
  unfold py_get. rewrite Hlabels. cbn [bind].
  replace (if truthy (PList items) then PList items else PList [])
    with (PList items) by (destruct items; reflexivity).
  cbn [py_iter bind]. rewrite add_labels_result. now rewrite app_nil_r.
Qed.

(** X9. On the event of a pull request whose labels are a list, none of
    them with a name that cannot be hashed, the labels are extracted and
    a release counts as requested exactly when some entry of the list is
    a dict whose [name] is the string [release]; entries that are not
    dicts, or have no name, or an empty one, are passed over. *)
Theorem release_requested_from_event (w : World) (path text : pystr)
        (event pr : list (pystr * pyval)) (items : list pyval) :
  environ w (str "GITHUB_EVENT_PATH") = Some path -> path <> [] ->
  read_text w path = Some text ->
  json_loads w text = inl (PDict event) ->
  dict_get event (str "pull_request") = Some (PDict pr) -> pr <> [] ->
  dict_get pr (str "labels") = Some (PList items) ->
  existsb breaks_labels items = false ->
  exists labels,
    parse_labels_from_event w = Ok labels /\
    (forall v, In v labels <->
               truthy v = true /\
               exists label, In label items /\ label_name label = v) /\
    (release_requested_of labels = true <->
     exists label,
       In label items /\ label_name label = PStr (str "release")).
Proof.
  intros Henv Hpath Hread Hdecode Hpr Hne Hlabels Hhash.
  rewrite (parse_labels_pull_request w path text event pr items
             Henv Hpath Hread Hdecode Hpr Hne Hlabels), Hhash.
  eexists. split; [reflexivity|].
  assert (Hin : forall v,
             In v (rev (filter truthy (map label_name items))) <->
             truthy v = true /\
             exists label, In label items /\ label_name label = v).
  { intros v. rewrite <- in_rev, filter_In, in_map_iff. split.
    - intros [(label & E & Hl) Ht]. eauto.
    - intros [Ht (label & Hl & E)]. eauto. }
  split; [exact Hin|].
  unfold release_requested_of, RELEASE_LABELS. cbn [existsb].
  rewrite orb_false_r, existsb_exists. split.
  - intros (v & Hv & Heq). apply Hin in Hv. destruct Hv as [_ Hv].
    destruct v; try discriminate Heq. simpl in Heq.
    apply pystr_eqb_eq in Heq. now subst.
  - intros Hl. exists (PStr (str "release")). split.
    + apply Hin. split; [reflexivity|exact Hl].
    + reflexivity.
Qed.

(** X10. One label whose [name] is a non-empty list or dict is enough
    to make the extraction of the labels raise [TypeError], and with it
    a run whose current record is valid and whose baseline ref
    resolves. *)
Theorem unhashable_label_name_raises (w : World) (path text : pystr)
        (event pr : list (pystr * pyval)) (items : list pyval)
        (current : pyval) (base_ref : pystr) :
  environ w (str "GITHUB_EVENT_PATH") = Some path -> path <> [] ->
  read_text w path = Some text ->
  json_loads w text = inl (PDict event) ->
  dict_get event (str "pull_request") = Some (PDict pr) -> pr <> [] ->
  dict_get pr (str "labels") = Some (PList items) ->
  existsb breaks_labels items = true ->
  parse_labels_from_event w = Raised TypeError /\
  (read_json w VERSION_PATH = Ok current ->
   validate_payload dec current VERSION_PATH = Ok tt ->
   resolve_base_ref w = Some base_ref ->
   main dec cap w = Raised TypeError).
Proof.
  intros Henv Hpath Hread Hdecode Hpr Hne Hlabels Hhash.
  assert (Hparse : parse_labels_from_event w = Raised TypeError).
  { rewrite (parse_labels_pull_request w path text event pr items
               Henv Hpath Hread Hdecode Hpr Hne Hlabels).
    now rewrite Hhash. }
  split; [exact Hparse|].
  intros Hcur Hvalid Href. unfold main.
  rewrite Hcur. cbn [bind]. rewrite Hvalid. cbn [bind].
  rewrite Href, (resolve_base_ref_not_empty _ _ Href).
  now rewrite Hparse.
Qed.

(** ** The baseline resolver, once more *)

Lemma find_none_iff {A : Type} (p : A -> bool) (l : list A) :
  find p l = None <-> Forall (fun x => p x = false) l.
Proof.
  induction l as [|x l IH]; simpl.
  - split; [constructor|reflexivity].
  - destruct (p x) eqn:Hx.
    + split; [discriminate|]. intros H. inversion H. congruence.
    + rewrite IH. split.
      * intros H. now constructor.
      * intros H. now inversion H.
Qed.

(** X11. The resolver finds no baseline exactly when the hint is unset
    or empty and none of the four candidate branches verifies. *)
Theorem resolve_base_ref_none_iff (w : World) :
  resolve_base_ref w = None <->
  (environ w (str "GITHUB_BASE_REF") = None \/
   environ w (str "GITHUB_BASE_REF") = Some []) /\
  Forall (fun candidate =>
            check_output w
              [str "git"; str "rev-parse"; str "--verify"; candidate] = None)
         [str "origin/main"; str "origin/master"; str "main"; str "master"].
Proof.
  clear dec cap.
  unfold resolve_base_ref.
  assert (Hprobe :
    find (fun candidate =>
            match check_output w
                    [str "git"; str "rev-parse"; str "--verify"; candidate]
            with Some _ => true | None => false end) base_candidates = None
    <->
    Forall (fun candidate =>
              check_output w
                [str "git"; str "rev-parse"; str "--verify"; candidate]
              = None)
           [str "origin/main"; str "origin/master"; str "main";
            str "master"]).
  { rewrite find_none_iff. unfold base_candidates.
    split; intros H; eapply Forall_impl; try exact H; cbv beta;
      intros c Hc; destruct (check_output w _); congruence. }
  destruct (environ w (str "GITHUB_BASE_REF")) as [[|c name]|];
    cbn [is_empty]; rewrite ?Hprobe.
  - tauto.
  - split; [discriminate|]. intros [[E | E] _]; discriminate E.
  - tauto.
Qed.

(** X12. Whatever the resolver returns is either the hint behind
    [origin/], the hint being set and not empty, or one of the four
    candidates, which was then verified, the hint being unset or
    empty. *)
Theorem resolve_base_ref_sound (w : World) (base_ref : pystr) :
  resolve_base_ref w = Some base_ref ->
  (exists name,
     environ w (str "GITHUB_BASE_REF") = Some name /\ name <> [] /\
     base_ref = str "origin/" ++ name) \/
  ((environ w (str "GITHUB_BASE_REF") = None \/
    environ w (str "GITHUB_BASE_REF") = Some []) /\
   In base_ref
      [str "origin/main"; str "origin/master"; str "main"; str "master"] /\
   check_output w
     [str "git"; str "rev-parse"; str "--verify"; base_ref] <> None).
Proof.
  unfold resolve_base_ref.
  assert (Hprobe : forall p : pystr -> bool,
             (forall c, p c = true ->
                check_output w
                  [str "git"; str "rev-parse"; str "--verify"; c] <> None) ->
             find p base_candidates = Some base_ref ->
             In base_ref
               [str "origin/main"; str "origin/master"; str "main";
                str "master"] /\
             check_output w
               [str "git"; str "rev-parse"; str "--verify"; base_ref]
             <> None).
  { intros p Hp H. apply find_some in H. destruct H as [Hin Hc]. auto. }
  assert (Hverified : forall c,
             match check_output w
                     [str "git"; str "rev-parse"; str "--verify"; c]
             with Some _ => true | None => false end = true ->
             check_output w
               [str "git"; str "rev-parse"; str "--verify"; c] <> None).
  { intros c Hc E. rewrite E in Hc. discriminate Hc. }
  destruct (environ w (str "GITHUB_BASE_REF")) as [[|c name]|];
    cbn [is_empty]; intros H.
  - right. split; [auto|]. exact (Hprobe _ Hverified H).
  - left. exists (c :: name). injection H as <-.
    repeat split; [discriminate].
  - right. split; [auto|]. exact (Hprobe _ Hverified H).
Qed.

(** ** Reading the file at the baseline *)

Lemma drop_while_split {A : Type} (p : A -> bool) (l : list A) :
  exists front, l = front ++ drop_while p l /\ forallb p front = true.
Proof.
  induction l as [|x l (front & E & Hf)]; simpl.
  - exists []. auto.
  - destruct (p x) eqn:Hx.
    + exists (x :: front). simpl. rewrite Hx, Hf. split; [|reflexivity].
      now f_equal.
    + exists []. auto.
Qed.

(** X13. [git_show] gives nothing when the command fails; otherwise it
    gives the output of the command without the whitespace around it:
    the output is whitespace, the result, whitespace, and the result
    neither starts nor ends with a whitespace character. *)
Theorem git_show_stripped (w : World) (ref path : pystr) :
  match check_output w [str "git"; str "show"; ref ++ str ":" ++ path] with
  | None => git_show w ref path = None
  | Some output =>
      exists before contents after,
        git_show w ref path = Some contents /\
        output = before ++ contents ++ after /\
        forallb is_space before = true /\
        forallb is_space after = true /\
        (forall c rest, contents = c :: rest -> is_space c = false) /\
        (forall front c, contents = front ++ [c] -> is_space c = false)
  end.
Proof.
  unfold git_show.
  destruct (check_output w _) as [output|]; [|reflexivity].
  unfold strip.
  destruct (drop_while_split is_space output) as (before & Eo & Hb).
  destruct (drop_while_split is_space (rev (drop_while is_space output)))
    as (back & Er & Hback).
  set (middle := drop_while is_space output) in *.
  set (kept := drop_while is_space (rev middle)) in *.
  exists before, (rev kept), (rev back).
  split; [reflexivity|]. split; [|split; [exact Hb|split; [|split]]].
  - rewrite Eo at 1. f_equal.
    rewrite <- (rev_involutive middle), Er, rev_app_distr. reflexivity.
  - rewrite forallb_forall in *. intros c Hc. apply Hback.
    now apply in_rev.
  - intros c rest E.
    destruct kept as [|k kept'] eqn:Ek.
    + discriminate E.
    + assert (Hm : middle = rev (k :: kept') ++ rev back).
      { rewrite <- (rev_involutive middle), Er, rev_app_distr.
        reflexivity. }
      rewrite E in Hm. simpl in Hm.
      unfold middle in Hm. now apply drop_while_head in Hm.
  - intros front c E.
    apply (f_equal (@rev _)) in E. rewrite rev_involutive in E.
    rewrite rev_app_distr in E. simpl in E.
    unfold kept in E. now apply drop_while_head in E.
Qed.

(** ** Splitting a version *)

Lemma split_on_length (sep : N) (s : pystr) :
  List.length (split_on sep s) = S (count_occ N.eq_dec s sep).
Proof.
  induction s as [|c s IH]; simpl; [reflexivity|].
  destruct (N.eqb_spec c sep) as [->|Hne].
  - simpl. rewrite IH. destruct (N.eq_dec sep sep); congruence.
  - destruct (N.eq_dec c sep); [congruence|].
    destruct (split_on sep s) as [|part parts]; [discriminate IH|].
    exact IH.
Qed.

(** X14. A version with other than two dots in it makes [semver_tuple]
    raise [ValueError]: the three names cannot be bound to the parts. *)
Theorem semver_tuple_needs_two_dots (s : pystr) :
  count_occ N.eq_dec s 46 <> 2%nat ->
  semver_tuple dec cap (PStr s) = Raised ValueError.
Proof.
  intros H. unfold semver_tuple.
  pose proof (split_on_length 46 s) as Hlen.
  destruct (split_on 46 s) as [|a [|b [|c [|d parts]]]]; simpl in Hlen;
    try reflexivity.
  exfalso. apply H. congruence.
Qed.

(** ** Writing a version and reading it back *)

Ltac digit_step :=
  unfold uint_chars, str in *;
  cbn [NilEmpty.string_of_uint list_ascii_of_string map fold_left forallb];
  repeat match goal with
  | |- context [N_of_ascii ?a] =>
      let v := eval cbv in (N_of_ascii a) in change (N_of_ascii a) with v
  end;
  repeat match goal with
  | |- context [digit_of dec (N.pos ?c)] =>
      let v := eval cbv in (digit_of dec (N.pos c)) in
      change (digit_of dec (N.pos c)) with v
  | |- context [is_decimal dec (N.pos ?c)] =>
      let v := eval cbv in (is_decimal dec (N.pos c)) in
      change (is_decimal dec (N.pos c)) with v
  end.

Lemma uint_chars_decimal (d : Decimal.uint) :
  forallb (is_decimal dec) (uint_chars d) = true.
Proof.
  induction d; digit_step; try reflexivity; exact IHd.
Qed.

Lemma uint_chars_from (d : Decimal.uint) (acc : positive) :
  fold_left (fun n c => (10 * n + digit_of dec c)%Z) (uint_chars d)
            (Z.pos acc) =
  Z.pos (Pos.of_uint_acc d acc).
Proof.
  revert acc. induction d; intros acc; digit_step;
    try reflexivity; cbn [Pos.of_uint_acc]; rewrite <- IHd;
    f_equal; lia.
Qed.

Lemma uint_chars_number (d : Decimal.uint) :
  number_of dec (uint_chars d) = Z.of_N (Pos.of_uint d).
Proof.
  unfold number_of.
  induction d; digit_step; try reflexivity; cbn [Pos.of_uint];
    try exact IHd;
    match goal with
    | |- fold_left _ _ ?z = _ =>
        let p := eval cbv in (Z.to_pos z) in
        change z with (Z.pos p)
    end;
    apply (uint_chars_from d).
Qed.

Lemma nzhead_head (d : Decimal.uint) :
  match Decimal.nzhead d with Decimal.D0 _ => False | _ => True end.
Proof. induction d; simpl; auto. Qed.

Lemma to_uint_head (p : positive) :
  match Pos.to_uint p with
  | Decimal.Nil | Decimal.D0 _ => False
  | _ => True
  end.
Proof.
  pose proof (Unsigned.to_of (Pos.to_uint p)) as E.
  rewrite Unsigned.of_to in E. change (N.to_uint (N.pos p)) with
    (Pos.to_uint p) in E.
  pose proof (Unsigned.to_uint_nonzero p) as Hz.
  pose proof (nzhead_head (Pos.to_uint p)) as Hh.
  unfold Decimal.unorm in E.
  destruct (Decimal.nzhead (Pos.to_uint p)) eqn:Hn;
    solve [rewrite E; exact I | elim Hh | elim Hz; exact E].
Qed.

(** [str] writes an integer that is not negative as one component, and
    the component denotes the integer. *)
Lemma str_of_int_component (z : Z) :
  (0 <= z)%Z ->
  componentb dec (str_of_int z) = true /\
  number_of dec (str_of_int z) = z.
Proof.
  intros Hz. destruct z as [|p|p]; [split; reflexivity| |lia].
  pose proof (to_uint_head p) as Hh.
  pose proof (uint_chars_decimal (Pos.to_uint p)) as Hd.
  pose proof (uint_chars_number (Pos.to_uint p)) as Hn.
  rewrite Unsigned.of_to in Hn.
  unfold str_of_int. cbn [Z.to_int NilZero.string_of_int].
  unfold NilZero.string_of_uint.
  destruct (Pos.to_uint p) eqn:E; try (now elim Hh);
    (split; [|exact Hn]);
    revert Hd; clear; digit_step; intros Hd;
    cbn [componentb]; rewrite Hd; reflexivity.
Qed.

Section RoundTrip.

Hypothesis dec_below_ten : forall c d, dec c = Some d -> d < 10.
Hypothesis dec_not_space : forall c, is_space c = true -> dec c = None.

(** X16. Writing and reading back: for integers that are not negative
    and whose decimal writing has no more digits than the cap on
    conversions allows, so that [str] writes them and [int] reads them,
    the version whose components are their writings is accepted by the
    pattern, and [semver_tuple] gives the three integers back. *)
Theorem version_round_trip (major minor patch : Z) :
  (0 <= major)%Z -> (0 <= minor)%Z -> (0 <= patch)%Z ->
  over_cap cap (N.of_nat (List.length (str_of_int major))) = false ->
  over_cap cap (N.of_nat (List.length (str_of_int minor))) = false ->
  over_cap cap (N.of_nat (List.length (str_of_int patch))) = false ->
  re_match dec SEMVER_RE (version_text major minor patch) = true /\
  semver_tuple dec cap (PStr (version_text major minor patch)) =
    Ok (major, minor, patch).
Proof.
  intros Ha Hb Hc Wa Wb Wc.
  destruct (str_of_int_component major Ha) as [Ca Na].
  destruct (str_of_int_component minor Hb) as [Cb Nb].
  destruct (str_of_int_component patch Hc) as [Cc Nc].
  destruct (semver_tuple_parts dec cap dec_below_ten dec_not_space
              _ _ _ [] Ca Cb Cc eq_refl) as (Hs & Ia & Ib & Ic).
  rewrite app_nil_r in Hs, Ic. rewrite Wa in Ia. rewrite Wb in Ib.
  rewrite Wc in Ic. split.
  - apply semver_re_spec.
    exists (str_of_int major), (str_of_int minor), (str_of_int patch), [].
    rewrite app_nil_r. auto.
  - unfold semver_tuple, version_text.
    rewrite Hs, Ia, Ib, Ic, Na, Nb, Nc. reflexivity.
Qed.

End RoundTrip.

End Further.

(** * The further properties at concrete runs *)

Lemma validate_payload_error_names_source_witness :
  exists rest,
    str "ERROR: Docs/version.json marketing_version must be SemVer (x.y.z)" =
    str "ERROR: " ++ VERSION_PATH ++ rest.
Proof.
  apply (validate_payload_error_names_source ascii_digits_only
           (version_record "1.2" 5) VERSION_PATH).
  reflexivity.
Defined.

Lemma current_record_first_witness :
  main ascii_digits_only 4300 empty_hint_no_branch_world =
  Exit1 (str "ERROR: Missing Docs/version.json").
Proof.
  apply current_record_first. left. reflexivity.
Defined.


Lemma malformed_baseline_reported_witness :
  main ascii_digits_only 4300 undecodable_baseline_world =
    Exit1 (str "ERROR: Invalid JSON in Docs/version.json at origin/main: Expecting value: line 1 column 1 (char 0)") /\
  main ascii_digits_only 4300 bad_baseline_world =
    Exit1 (str "ERROR: Docs/version.json at origin/main marketing_version must be SemVer (x.y.z)").
Proof.
  split.
  - edestruct (malformed_baseline_reported ascii_digits_only 4300
                 undecodable_baseline_world) as [Hjson _].
    1-6: reflexivity.
    apply Hjson. reflexivity.
  - edestruct (malformed_baseline_reported ascii_digits_only 4300
                 bad_baseline_world) as [_ Hrecord].
    1-6: reflexivity.
    apply (Hrecord (version_record "1.2" 5)); reflexivity.
Defined.

Lemma comparison_verdict_witness :
  main ascii_digits_only 4300 release_bumped_world =
  Ok (str "Versioning validation passed.").
Proof.
  edestruct (comparison_verdict ascii_digits_only 4300 release_bumped_world)
    as [[_ Hpass] _].
  1-7: reflexivity.
  1-2: unfold has_fields; repeat split; reflexivity.
  1-2: reflexivity.
  apply Hpass. right. split; [reflexivity|]. split; [lia|].
  split; reflexivity.
Defined.

Lemma release_requested_from_event_witness :
  exists labels,
    parse_labels_from_event release_same_version_world = Ok labels /\
    release_requested_of labels = true.
Proof.
  edestruct (release_requested_from_event release_same_version_world)
    as (labels & Hparse & _ & Hrelease).
  1: reflexivity.
  1: cbv; discriminate.
  1-3: reflexivity.
  1: cbv; discriminate.
  1-2: reflexivity.
  exists labels. split; [exact Hparse|]. apply Hrelease.
  exists (PDict [(str "name", PStr (str "release"))]).
  split; [left; reflexivity|reflexivity].
Defined.

Lemma unhashable_label_name_raises_witness :
  parse_labels_from_event list_named_world = Raised TypeError /\
  main ascii_digits_only 4300 list_named_world = Raised TypeError.
Proof.
  edestruct (unhashable_label_name_raises ascii_digits_only 4300
               list_named_world) as [Hparse Hmain].
  1: reflexivity.
  1: cbv; discriminate.
  1-3: reflexivity.
  1: cbv; discriminate.
  1-2: reflexivity.
  split; [exact Hparse|].
  apply Hmain; reflexivity.
Defined.

Lemma resolve_base_ref_sound_witness :
  In (str "master")
     [str "origin/main"; str "origin/master"; str "main"; str "master"] /\
  check_output empty_hint_world
    [str "git"; str "rev-parse"; str "--verify"; str "master"] <> None.
Proof.
  destruct (resolve_base_ref_sound empty_hint_world (str "master") eq_refl)
    as [(name & Henv & Hne & _) | (_ & Hin & Hverified)].
  - exfalso. apply Hne. cbv in Henv. now injection Henv as <-.
  - split; assumption.
Defined.

Lemma semver_tuple_needs_two_dots_witness :
  semver_tuple ascii_digits_only 4300 (PStr (str "1.2")) = Raised ValueError.
Proof.
  apply semver_tuple_needs_two_dots. cbv. discriminate.
Defined.

Lemma version_round_trip_witness :
  re_match arabic_indic_digits SEMVER_RE (version_text 1 20 3) = true /\
  semver_tuple arabic_indic_digits 4300 (PStr (version_text 1 20 3)) =
    Ok (1, 20, 3)%Z.
Proof.
  apply (version_round_trip arabic_indic_digits 4300 arabic_indic_below_ten
           arabic_indic_not_space); solve [lia | reflexivity].
Defined.

(** * Validation and the comparisons *)

Section Safety.

Variable dec : N -> option N.
Variable cap : N.

Hypothesis dec_below_ten : forall c d, dec c = Some d -> d < 10.
Hypothesis dec_not_space : forall c, is_space c = true -> dec c = None.

Lemma compare_changed_conversions (current base : pyval)
      (current_version base_version : pystr)
      (current_build_value base_build_value : pyval)
      (current_build base_build : Z) (requested : bool) :
  has_fields current current_version current_build_value current_build ->
  has_fields base base_version base_build_value base_build ->
  (current_build <=? base_build)%Z = false ->
  compare_changed dec cap current base requested =
  current_tuple <- semver_tuple dec cap (PStr current_version) ;;
  base_tuple <- semver_tuple dec cap (PStr base_version) ;;
  if tuple_ltb current_tuple base_tuple then
    fail (str "marketing_version must not decrease (current " ++
          current_version ++ str ", base " ++ base_version ++ str ")")
  else if requested && tuple_leb current_tuple base_tuple then
    fail (str "marketing_version must increase for release label (current "
          ++ current_version ++ str ", base " ++ base_version ++ str ")")
  else Ok tt.
Proof.
  intros (Hcv & Hcb & Hci) (Hbv & Hbb & Hbi) Hle.
  unfold compare_changed.
  rewrite Hcb, Hbb. cbn [bind].
  unfold py_le. rewrite Hci, Hbi. cbn [bind]. rewrite Hle.
  rewrite Hcv. cbn [bind].
  destruct (semver_tuple dec cap (PStr current_version)); cbn [bind];
    try reflexivity.
  rewrite Hbv. cbn [bind].
  destruct (semver_tuple dec cap (PStr base_version)); cbn [bind];
    reflexivity.
Qed.

(** X17. Two records the validator has let through, compared by the
    body of [if changed:]: the comparison returns, or exits on a
    diagnostic that starts with [ERROR: ], or raises [ValueError]; it
    raises exactly when the build number rose and one of the two
    versions has a component of more digits than the cap on conversions
    lets [int] read.  No lookup, ordering or formatting in it raises. *)
Theorem comparison_raises_only_past_cap (current base : pyval)
        (current_source base_source : pystr) (requested : bool) :
  validate_payload dec current current_source = Ok tt ->
  validate_payload dec base base_source = Ok tt ->
  exists current_version current_build_value current_build
         base_version base_build_value base_build,
    has_fields current current_version current_build_value current_build /\
    has_fields base base_version base_build_value base_build /\
    (compare_changed dec cap current base requested = Ok tt \/
     (exists line,
        compare_changed dec cap current base requested = Exit1 line /\
        error_line line) \/
     compare_changed dec cap current base requested = Raised ValueError) /\
    (compare_changed dec cap current base requested = Raised ValueError <->
     (base_build < current_build)%Z /\
     version_within_cap dec cap current_version &&
       version_within_cap dec cap base_version = false).
Proof.
  intros Hc Hb.
  apply validate_ok_fields in Hc. apply validate_ok_fields in Hb.
  destruct Hc as (cv & cbv & cb & Hcf & Hcre & _).
  destruct Hb as (bv & bbv & bb & Hbf & Hbre & _).
  exists cv, cbv, cb, bv, bbv, bb.
  split; [exact Hcf|]. split; [exact Hbf|].
  destruct (semver_tuple_accepted dec cap dec_below_ten dec_not_space
              cv Hcre) as [ct Hct].
  destruct (semver_tuple_accepted dec cap dec_below_ten dec_not_space
              bv Hbre) as [bt Hbt].
  destruct (Z.leb_spec cb bb) as [Hle | Hgt].
  - assert (Hexit : exists line,
               compare_changed dec cap current base requested = Exit1 line
               /\ error_line line).
    { destruct Hcf as (_ & Hcb & Hci). destruct Hbf as (_ & Hbb & Hbi).
      destruct (format_value_int _ _ Hci) as [sc Hsc].
      destruct (format_value_int _ _ Hbi) as [sb Hsb].
      unfold compare_changed. rewrite Hcb, Hbb. cbn [bind].
      unfold py_le. rewrite Hci, Hbi. cbn [bind].
      apply Z.leb_le in Hle. rewrite Hle, Hsc, Hsb. cbn [bind].
      eexists. split; [reflexivity|]. eexists. reflexivity. }
    destruct Hexit as (line & Hline & Herr). rewrite Hline. split.
    + right. left. eauto.
    + split; [discriminate|]. intros [Hlt _]. lia.
  - rewrite (compare_changed_conversions current base cv bv cbv bbv cb bb
               requested Hcf Hbf) by (apply Z.leb_gt; exact Hgt).
    rewrite Hct, Hbt. unfold fail, error_line.
    destruct (version_within_cap dec cap cv),
             (version_within_cap dec cap bv); cbn [bind andb].
    + destruct (tuple_ltb ct bt);
        [|destruct (requested && tuple_leb ct bt)];
        (split;
         [solve [left; reflexivity
                |right; left; eexists; split; [reflexivity|];
                 eexists; reflexivity]
         |split; [discriminate|intros [_ E]; discriminate E]]).
    + split; [right; right; reflexivity|].
      split; [intros _; split; [exact Hgt|reflexivity]|reflexivity].
    + split; [right; right; reflexivity|].
      split; [intros _; split; [exact Hgt|reflexivity]|reflexivity].
    + split; [right; right; reflexivity|].
      split; [intros _; split; [exact Hgt|reflexivity]|reflexivity].
Qed.

(** X18. A version past the cap stops a run with an exception: when both
    records are valid, the version file changed and the build number
    rose, a current or baseline version with a component of more digits
    than the cap on conversions lets [int] read makes [main] raise
    [ValueError] in place of a verdict. *)
Theorem long_version_raises (w : World) (current base : pyval)
        (base_ref base_text : pystr) (labels : list pyval)
        (current_version base_version : pystr)
        (current_build_value base_build_value : pyval)
        (current_build base_build : Z) :
  read_json w VERSION_PATH = Ok current ->
  validate_payload dec current VERSION_PATH = Ok tt ->
  resolve_base_ref w = Some base_ref ->
  parse_labels_from_event w = Ok labels ->
  git_show w base_ref VERSION_PATH = Some base_text ->
  json_loads w base_text = inl base ->
  validate_payload dec base (VERSION_PATH ++ str " at " ++ base_ref) = Ok tt ->
  has_fields current current_version current_build_value current_build ->
  has_fields base base_version base_build_value base_build ->
  file_changed w base_ref VERSION_PATH = true ->
  (base_build < current_build)%Z ->
  version_within_cap dec cap current_version &&
    version_within_cap dec cap base_version = false ->
  main dec cap w = Raised ValueError.
Proof.
  intros Hread Hvalid Href Hlabels Hshow Hdecode Hbase Hcf Hbf Hch Hgt Hcap.
  rewrite (main_reaches_comparison dec cap w current base base_ref
             base_text labels Hread Hvalid Href Hlabels Hshow Hdecode Hbase).
  rewrite Hch, andb_false_r.
  rewrite (compare_changed_conversions current base current_version
             base_version current_build_value base_build_value
             current_build base_build _ Hcf Hbf)
    by (apply Z.leb_gt; exact Hgt).
  assert (Hcre : re_match dec SEMVER_RE current_version = true).
  { apply validate_ok_fields in Hvalid.
    destruct Hvalid as (v & bv & b & (Hv & _) & Hre & _).
    destruct Hcf as (Hv' & _). rewrite Hv in Hv'. now injection Hv' as <-. }
  assert (Hbre : re_match dec SEMVER_RE base_version = true).
  { apply validate_ok_fields in Hbase.
    destruct Hbase as (v & bv & b & (Hv & _) & Hre & _).
    destruct Hbf as (Hv' & _). rewrite Hv in Hv'. now injection Hv' as <-. }
  destruct (semver_tuple_accepted dec cap dec_below_ten dec_not_space
              _ Hcre) as [ct ->].
  destruct (semver_tuple_accepted dec cap dec_below_ten dec_not_space
              _ Hbre) as [bt ->].
  destruct (version_within_cap dec cap current_version),
           (version_within_cap dec cap base_version);
    try discriminate Hcap; reflexivity.
Qed.

End Safety.

Lemma comparison_raises_only_past_cap_witness :
  exists current_version current_build_value current_build
         base_version base_build_value base_build,
    has_fields (version_record "1.2.0" 6)
      current_version current_build_value current_build /\
    has_fields (version_record "1.2.0" 5)
      base_version base_build_value base_build /\
    (compare_changed arabic_indic_digits 4300
       (version_record "1.2.0" 6) (version_record "1.2.0" 5) true = Ok tt \/
     (exists line,
        compare_changed arabic_indic_digits 4300
          (version_record "1.2.0" 6) (version_record "1.2.0" 5) true =
          Exit1 line /\
        error_line line) \/
     compare_changed arabic_indic_digits 4300
       (version_record "1.2.0" 6) (version_record "1.2.0" 5) true =
       Raised ValueError) /\
    (compare_changed arabic_indic_digits 4300
       (version_record "1.2.0" 6) (version_record "1.2.0" 5) true =
       Raised ValueError <->
     (base_build < current_build)%Z /\
     version_within_cap arabic_indic_digits 4300 current_version &&
       version_within_cap arabic_indic_digits 4300 base_version = false).
Proof.
  apply (comparison_raises_only_past_cap arabic_indic_digits 4300
           arabic_indic_below_ten arabic_indic_not_space _ _
           VERSION_PATH VERSION_PATH);
    reflexivity.
Defined.

Lemma long_version_raises_witness :
  main arabic_indic_digits 4300 long_version_world = Raised ValueError.
Proof.
  assert (Hlong : re_match arabic_indic_digits SEMVER_RE long_patch_version
                  = true).
  { apply semver_re_spec. exists [49], [48], (repeat 57 4301), [].
    repeat split; vm_compute; reflexivity. }
  apply (long_version_raises arabic_indic_digits 4300 arabic_indic_below_ten
           arabic_indic_not_space long_version_world
           (record (PStr long_patch_version) (PInt 6))
           (version_record "1.0.0" 5) (str "origin/main")
           (fst (version_document "1.0.0" 5)) []
           long_patch_version (str "1.0.0") (PInt 6) (PInt 5) 6 5).
  - vm_compute. reflexivity.
  - apply (fields_validate_ok arabic_indic_digits _ _ long_patch_version
             (PInt 6) 6); [repeat split|exact Hlong|lia].
  - reflexivity.
  - reflexivity.
  - reflexivity.
  - reflexivity.
  - reflexivity.
  - repeat split.
  - repeat split.
  - reflexivity.
  - lia.
  - vm_compute. reflexivity.
Defined.
